(** * Login, signup and greeting pages: embedding and verified properties

    The pages are event handlers over React state.  A handler is embedded
    as a function from the state of the render it closes over to the next
    state and the list of effects it performed, in program order.  The
    outcome of a [fetch] is an input of the handler: the part of an [async]
    handler that follows the [await] is a function of that outcome.

    Strings are [string]; a character stands for one UTF-16 code unit below
    256, so [String.length] is the [.length] of the source. *)

From Stdlib Require Import String Ascii List Bool Arith PeanoNat Lia.
From Stdlib Require Import DecimalString.
Import ListNotations.
Open Scope string_scope.
Open Scope bool_scope.
Set Warnings "-register-all".

(** ** Host values: strings, numbers, parsed JSON *)

Module JS.

(** [WhiteSpace] and [LineTerminator] of the language, which is both what
    [String.prototype.trim] strips and what the class [\s] matches:
    TAB, LF, VT, FF, CR, SP and NBSP in this range of code units. *)
Definition is_space (c : ascii) : bool :=
  let n := nat_of_ascii c in
  ((9 <=? n) && (n <=? 13) || (n =? 32) || (n =? 160))%nat.

(** The class [\d]. *)
Definition is_digit (c : ascii) : bool :=
  let n := nat_of_ascii c in ((48 <=? n) && (n <=? 57))%nat.

Fixpoint trimStart (s : string) : string :=
  match s with
  | String c r => if is_space c then trimStart r else s
  | EmptyString => EmptyString
  end.

(** [trimEnd], by recursion from the right end: a character is dropped
    when it is white space and all that follows it was dropped. *)
Fixpoint trimEnd (s : string) : string :=
  match s with
  | String c r =>
      match trimEnd r with
      | EmptyString => if is_space c then EmptyString else String c EmptyString
      | r' => String c r'
      end
  | EmptyString => EmptyString
  end.

Definition trim (s : string) : string := trimEnd (trimStart s).

Fixpoint forall_chars (p : ascii -> bool) (s : string) : bool :=
  match s with
  | String c r => p c && forall_chars p r
  | EmptyString => true
  end.

Fixpoint filter_chars (p : ascii -> bool) (s : string) : string :=
  match s with
  | String c r => if p c then String c (filter_chars p r) else filter_chars p r
  | EmptyString => EmptyString
  end.

(** [s.replace(/\s+/g, '')]: every maximal run of white space is replaced
    by the empty string, which removes every white space character. *)
Definition remove_spaces (s : string) : string :=
  filter_chars (fun c => negb (is_space c)) s.

(** [s.startsWith(t)]. *)
Fixpoint startsWith (s t : string) {struct t} : bool :=
  match t, s with
  | EmptyString, _ => true
  | String a t', String b s' => Ascii.eqb a b && startsWith s' t'
  | String _ _, EmptyString => false
  end.

(** [s.includes(t)]. *)
Fixpoint includes (s t : string) : bool :=
  startsWith s t ||
  match s with
  | String _ r => includes r t
  | EmptyString => false
  end.

(** [toLowerCase] on this range of code units: A-Z, and the capital
    letters U+00C0-U+00DE but for the multiplication sign U+00D7. *)
Definition lower_char (c : ascii) : ascii :=
  let n := nat_of_ascii c in
  if ((65 <=? n) && (n <=? 90) ||
      (192 <=? n) && (n <=? 222) && negb (n =? 215))%nat
  then ascii_of_nat (n + 32) else c.

Fixpoint toLowerCase (s : string) : string :=
  match s with
  | String c r => String (lower_char c) (toLowerCase r)
  | EmptyString => EmptyString
  end.

(** A non-negative integer in a template literal, as [res.status] is. *)
Definition decimal (n : nat) : string :=
  NilZero.string_of_uint (Nat.to_uint n).

(** A value that [JSON.parse] produces.  A number is carried by its
    canonical rendering (what [String(n)] returns), which is all the
    pages observe of it; both zeros render as [0].  An object is the
    list of its members in document order. *)
Inductive json : Type :=
| JNull
| JBool (b : bool)
| JNum (rendering : string)
| JStr (s : string)
| JArr (items : list json)
| JObj (members : list (string * json)).

(** A language value read out of such a document: [None] is [undefined]. *)
Definition value : Type := option json.

(** [ToBoolean]. *)
Definition truthy (v : value) : bool :=
  match v with
  | None => false
  | Some JNull => false
  | Some (JBool b) => b
  | Some (JNum r) => negb (r =? "0")
  | Some (JStr s) => negb (s =? "")
  | Some (JArr _) => true
  | Some (JObj _) => true
  end.

(** The value of the last member named [k]: a later duplicate overwrites
    an earlier one when the document is parsed. *)
Fixpoint member (k : string) (ms : list (string * json)) : value :=
  match ms with
  | [] => None
  | (k', v) :: r =>
      match member k r with
      | Some w => Some w
      | None => if k' =? k then Some v else None
      end
  end.

(** [v.k] for a parsed document [v] and a name [k] that no prototype
    defines ([error], [message] and [user] are the names read): [None]
    when the read throws a [TypeError], which it does on [null]. *)
Definition get (v : json) (k : string) : option value :=
  match v with
  | JNull => None
  | JObj ms => Some (member k ms)
  | _ => Some None
  end.

(** [a || b] for a [b] that is not [undefined]. *)
Definition or_else (a : value) (b : json) : json :=
  match a with
  | Some v => if truthy a then v else b
  | None => b
  end.

(** [ToString], as the [Error] constructor applies it to its argument;
    [None] when the conversion throws a [TypeError].  An array joins its
    items with commas, [null] items as empty.  An object is converted by
    its [toString]: the inherited one gives the fixed text, and an own
    member of that name, which is no function in a parsed document, leaves
    the object with no primitive value. *)
Fixpoint ToString (v : json) : option string :=
  match v with
  | JNull => Some "null"
  | JBool true => Some "true"
  | JBool false => Some "false"
  | JNum r => Some r
  | JStr s => Some s
  | JArr items =>
      (fix join (l : list json) : option string :=
         match l with
         | [] => Some ""
         | x :: r =>
             match match x with JNull => Some "" | _ => ToString x end with
             | Some sx =>
                 match r with
                 | [] => Some sx
                 | _ =>
                     match join r with
                     | Some sr => Some (sx ++ "," ++ sr)
                     | None => None
                     end
                 end
             | None => None
             end
         end) items
  | JObj ms =>
      match member "toString" ms with
      | Some _ => None
      | None => Some "[object Object]"
      end
  end.

(** [${x}] for a variable read from the environment, which is a string
    or [undefined]. *)
Definition template (x : option string) : string :=
  match x with Some s => s | None => "undefined" end.

(** [!x] for such a variable. *)
Definition unset (x : option string) : bool :=
  match x with Some s => s =? "" | None => true end.

End JS.

(** ** What the pages take from outside the repository *)

Module Host.

(** The validation library's pattern for an email address and the texts
    of the engine's [TypeError] for a property read on [null] and for an
    object with no primitive value.  The handlers are embedded for any
    such host. *)
Record t : Type := {
  email_shape : string -> bool;
  null_read_message : string;
  no_primitive_message : string
}.

Definition is_alpha (c : ascii) : bool :=
  let n := nat_of_ascii c in
  ((65 <=? n) && (n <=? 90) || (97 <=? n) && (n <=? 122))%nat.

Definition is_alnum (c : ascii) : bool := is_alpha c || JS.is_digit c.

Definition one_of (set : string) (c : ascii) : bool :=
  JS.includes set (String c EmptyString).

(** The text before the first [sep] and the text after it. *)
Fixpoint split_at (sep : ascii) (s : string) : option (string * string) :=
  match s with
  | EmptyString => None
  | String c r =>
      if Ascii.eqb c sep then Some (EmptyString, r)
      else match split_at sep r with
           | Some (a, b) => Some (String c a, b)
           | None => None
           end
  end.

Fixpoint last_char (s : string) : option ascii :=
  match s with
  | EmptyString => None
  | String c EmptyString => Some c
  | String _ r => last_char r
  end.

Definition label_ok (l : string) : bool :=
  match l with
  | String c r => is_alnum c && JS.forall_chars (fun x => is_alnum x || one_of "-" x) r
  | EmptyString => false
  end.

(** [([A-Z0-9][A-Z0-9\-]*\.)+[A-Z]{2,}] on the whole of [s]; [fuel] bounds
    the number of labels and [seen] says that one label was read. *)
Fixpoint domain_ok (fuel : nat) (seen : bool) (s : string) : bool :=
  match fuel with
  | O => false
  | S fuel' =>
      match split_at "." s with
      | Some (l, r) => label_ok l && domain_ok fuel' true r
      | None => seen && (2 <=? String.length s)%nat && JS.forall_chars is_alpha s
      end
  end.

(** Modelled from the spec: the email pattern of the validation library,
    which is not under src/; the spec says only that an email matches the
    standard email shape.  The text does not start with a dot and has no
    two dots in a row; before the one at sign come letters, digits and
    any of _ ' + - . with the last of them not a quote or a dot; after it
    come one or more labels, each a letter or digit followed by letters,
    digits and hyphens and closed by a dot, and at last two or more
    letters. *)
Definition email_pattern (s : string) : bool :=
  negb (JS.startsWith s ".") && negb (JS.includes s "..") &&
  match split_at "@" s with
  | Some (l, d) =>
      JS.forall_chars (fun x => is_alnum x || one_of "_'+-." x) l &&
      match last_char l with
      | Some c => is_alnum c || one_of "_+-" c
      | None => false
      end &&
      domain_ok (S (String.length d)) false d
  | None => false
  end.

(** The host of the concrete runs below. *)
Definition browser : t := {|
  email_shape := email_pattern;
  null_read_message := "Cannot read properties of null (reading 'error')";
  no_primitive_message := "Cannot convert object to primitive value"
|}.

End Host.

(** ** Requests, responses and effects *)

Module Web.

Inductive credentials_mode : Type := include.

(** The argument of [fetch].  [method] and [credentials] are [None] when
    the call leaves them out; [body] holds the value that the call hands
    to [JSON.stringify]. *)
Record request : Type := {
  url : string;
  method : option string;
  content_type : option string;
  body : option JS.json;
  credentials : option credentials_mode
}.

(** What a handler reads of a response: the status, and what [res.json()]
    and [res.text()] settle to, [None] when the promise rejects. *)
Record response : Type := {
  status : nat;
  json : option JS.json;
  text : option string
}.

(** [res.ok]. *)
Definition ok (r : response) : bool :=
  ((200 <=? status r) && (status r <=? 299))%nat.

(** How the promise of [fetch] settles; a rejection carries the message
    of its error. *)
Inductive outcome : Type :=
| Rejected (message : string)
| Resolved (r : response).

Inductive toast_kind : Type := toast_error | toast_loading | toast_success.

Inductive console_level : Type := console_log | console_warn | console_error.

(** The effects of a handler other than its state updates.  A toast keeps
    its title and its description. *)
Inductive effect : Type :=
| PreventDefault
| Fetch (r : request)
| Toast (k : toast_kind) (title : string) (description : option JS.json)
| RouterPush (path : string)
| RouterRefresh
| Focus (id : string)
| Console (l : console_level) (text : string).

(** The requests among the effects, in order. *)
Fixpoint requests (es : list effect) : list request :=
  match es with
  | [] => []
  | Fetch r :: es' => r :: requests es'
  | _ :: es' => requests es'
  end.

End Web.

(** ** Objects as ordered finite maps *)

Module Obj.

Section Obj.
Context {K V : Type} (eqb : K -> K -> bool).

(** [o[k]]. *)
Fixpoint get (k : K) (o : list (K * V)) : option V :=
  match o with
  | [] => None
  | (k', v) :: r => if eqb k' k then Some v else get k r
  end.

(** [{...o, [k]: v}]: an own key keeps its place, a new one goes last. *)
Fixpoint set (k : K) (v : V) (o : list (K * V)) : list (K * V) :=
  match o with
  | [] => [(k, v)]
  | (k', v') :: r => if eqb k' k then (k', v) :: r else (k', v') :: set k v r
  end.

(** [delete o[k]]. *)
Fixpoint delete (k : K) (o : list (K * V)) : list (K * V) :=
  match o with
  | [] => []
  | (k', v') :: r => if eqb k' k then delete k r else (k', v') :: delete k r
  end.

Definition keys (o : list (K * V)) : list K := map fst o.

End Obj.

End Obj.

(** ** The validation library, as far as the schemas use it *)

Module Zod.

(** One entry of the check list of a string schema; the builder calls
    append to the list in the order they are written. *)
Inductive check : Type :=
| Trim
| Min (n : nat) (message : string)
| Email (message : string)
| Regex (re : string -> bool) (message : string).

Record issue (K : Type) : Type := {
  path : list K;
  message : string
}.
Arguments path {K} _.
Arguments message {K} _.
Arguments Build_issue {K} _ _.

(** A string schema on a string: the checks run in order and every one
    that fails adds its message; none stops the ones after it.  [Trim]
    replaces the data for the checks that follow and for the output. *)
Fixpoint run_checks (h : Host.t) (cs : list check) (data : string)
  : string * list string :=
  match cs with
  | [] => (data, [])
  | Trim :: r => run_checks h r (JS.trim data)
  | Min n m :: r =>
      let '(out, ms) := run_checks h r data in
      (out, if (String.length data <? n)%nat then m :: ms else ms)
  | Email m :: r =>
      let '(out, ms) := run_checks h r data in
      (out, if Host.email_shape h data then ms else m :: ms)
  | Regex re m :: r =>
      let '(out, ms) := run_checks h r data in
      (out, if re data then ms else m :: ms)
  end.

Section Flatten.
Context {K : Type} (eqb : K -> K -> bool).

(** [error.flatten().fieldErrors]: the messages of the issues, in order,
    under the first key of their path. *)
Fixpoint fieldErrors_from (acc : list (K * list string)) (issues : list (issue K))
  : list (K * list string) :=
  match issues with
  | [] => acc
  | i :: r =>
      match path i with
      | [] => fieldErrors_from acc r
      | k :: _ =>
          let old := match Obj.get eqb k acc with Some l => l | None => [] end in
          fieldErrors_from (Obj.set eqb k (old ++ [message i])%list acc) r
      end
  end.

Definition fieldErrors (issues : list (issue K)) : list (K * list string) :=
  fieldErrors_from [] issues.

End Flatten.

(** The result of [safeParse]. *)
Inductive result (D K : Type) : Type :=
| Success (data : D)
| Failure (issues : list (issue K)).
Arguments Success {D K} _.
Arguments Failure {D K} _.

Definition safeParse {D K : Type} (r : D * list (issue K)) : result D K :=
  match snd r with
  | [] => Success (fst r)
  | issues => Failure issues
  end.

End Zod.

(** ** The signup page (src/unnamed/part_001) *)

Module SignUp.

(** [keyof SignUpFormData]. *)
Module Key.
Inductive t : Type := name | email | mobileNumber | password | confirmPassword.

Definition eqb (a b : t) : bool :=
  match a, b with
  | name, name | email, email | mobileNumber, mobileNumber
  | password, password | confirmPassword, confirmPassword => true
  | _, _ => false
  end.

(** The key as a string, which is also the [id] of the field's input. *)
Definition id (k : t) : string :=
  match k with
  | name => "name"
  | email => "email"
  | mobileNumber => "mobileNumber"
  | password => "password"
  | confirmPassword => "confirmPassword"
  end.
End Key.

Record SignUpFormData : Type := {
  name : string;
  email : string;
  mobileNumber : string;
  password : string;
  confirmPassword : string
}.

(** [data[k]]. *)
Definition read (k : Key.t) (d : SignUpFormData) : string :=
  match k with
  | Key.name => name d
  | Key.email => email d
  | Key.mobileNumber => mobileNumber d
  | Key.password => password d
  | Key.confirmPassword => confirmPassword d
  end.

(** [{...data, [k]: v}]. *)
Definition write (k : Key.t) (v : string) (d : SignUpFormData) : SignUpFormData :=
  match k with
  | Key.name =>
      {| name := v; email := email d; mobileNumber := mobileNumber d;
         password := password d; confirmPassword := confirmPassword d |}
  | Key.email =>
      {| name := name d; email := v; mobileNumber := mobileNumber d;
         password := password d; confirmPassword := confirmPassword d |}
  | Key.mobileNumber =>
      {| name := name d; email := email d; mobileNumber := v;
         password := password d; confirmPassword := confirmPassword d |}
  | Key.password =>
      {| name := name d; email := email d; mobileNumber := mobileNumber d;
         password := v; confirmPassword := confirmPassword d |}
  | Key.confirmPassword =>
      {| name := name d; email := email d; mobileNumber := mobileNumber d;
         password := password d; confirmPassword := v |}
  end.

Definition FormErrors : Type := list (Key.t * list string).

Definition initialState : SignUpFormData :=
  {| name := ""; email := ""; mobileNumber := ""; password := "";
     confirmPassword := "" |}.

(** The pattern of the mobile number, [^\+?[\d\s-]{8,}$]: an optional
    plus sign, then eight or more digits, white space characters and
    hyphens up to the end of the text. *)
Definition mobile_pattern (s : string) : bool :=
  let r := match s with
           | String "+" r => r
           | _ => s
           end in
  (8 <=? String.length r)%nat &&
  JS.forall_chars (fun c => JS.is_digit c || JS.is_space c || Ascii.eqb c "-") r.

Definition invalid_mobile : string := "Please enter a valid mobile number.".
Definition mismatch : string := "Passwords do not match".

(** The shape of [signUpSchema]: the string schema of each key, in the
    order of the keys. *)
Definition shape : list (Key.t * list Zod.check) :=
  [ (Key.name, [Zod.Trim; Zod.Min 1 "Full name is required"]);
    (Key.email, [Zod.Trim; Zod.Min 1 "Email is required";
                 Zod.Email "Email address is invalid"]);
    (Key.mobileNumber, [Zod.Trim; Zod.Min 8 invalid_mobile;
                        Zod.Regex mobile_pattern invalid_mobile]);
    (Key.password, [Zod.Min 6 "Password must be at least 6 characters"]);
    (Key.confirmPassword, [Zod.Min 1 "Please confirm your password."]) ].

(** The object schema on a value of its input type: every key is parsed
    by its schema, in order; the output collects the parsed values and
    the issues carry the key as their path. *)
Fixpoint parse_object (h : Host.t) (sh : list (Key.t * list Zod.check))
    (input : SignUpFormData) (out : SignUpFormData)
  : SignUpFormData * list (Zod.issue Key.t) :=
  match sh with
  | [] => (out, [])
  | (k, cs) :: r =>
      let '(v, ms) := Zod.run_checks h cs (read k input) in
      let '(out', rest) := parse_object h r input (write k v out) in
      (out', (map (Zod.Build_issue [k]) ms ++ rest)%list)
  end.

(** [.refine(data => data.password === data.confirmPassword, ...)]: the
    object schema leaves no key unparsed on a value of its input type, so
    the refinement runs on its output whatever issues the keys raised, and
    adds its issue after them. *)
Definition signUpSchema (h : Host.t) (input : SignUpFormData)
  : SignUpFormData * list (Zod.issue Key.t) :=
  let '(out, issues) := parse_object h shape input input in
  if password out =? confirmPassword out then (out, issues)
  else (out, (issues ++ [Zod.Build_issue [Key.confirmPassword] mismatch])%list).

Record state : Type := {
  formData : SignUpFormData;
  showPassword : bool;
  loading : bool;
  error : option string;
  formErrors : FormErrors;
  success : bool
}.

Definition initial : state :=
  {| formData := initialState; showPassword := false; loading := false;
     error := None; formErrors := []; success := false |}.

Definition setFormData (d : SignUpFormData) (st : state) : state :=
  {| formData := d; showPassword := showPassword st; loading := loading st;
     error := error st; formErrors := formErrors st; success := success st |}.

Definition setShowPassword (b : bool) (st : state) : state :=
  {| formData := formData st; showPassword := b; loading := loading st;
     error := error st; formErrors := formErrors st; success := success st |}.

Definition setLoading (b : bool) (st : state) : state :=
  {| formData := formData st; showPassword := showPassword st; loading := b;
     error := error st; formErrors := formErrors st; success := success st |}.

Definition setError (e : option string) (st : state) : state :=
  {| formData := formData st; showPassword := showPassword st;
     loading := loading st; error := e; formErrors := formErrors st;
     success := success st |}.

Definition setFormErrors (f : FormErrors -> FormErrors) (st : state) : state :=
  {| formData := formData st; showPassword := showPassword st;
     loading := loading st; error := error st;
     formErrors := f (formErrors st); success := success st |}.

Definition setSuccess (b : bool) (st : state) : state :=
  {| formData := formData st; showPassword := showPassword st;
     loading := loading st; error := error st; formErrors := formErrors st;
     success := b |}.

(** [isApiConfigured]. *)
Definition isApiConfigured (API_BASE_URL : option string) : bool :=
  negb (JS.unset API_BASE_URL).

Definition present {A : Type} (o : option A) : bool :=
  match o with Some _ => true | None => false end.

(** [handleChange].  The tests read the errors of the render the handler
    closes over, [st]; the updates apply in order. *)
Definition handleChange (field : Key.t) (value : string) (st : state) : state :=
  let st1 := setFormData (write field value (formData st)) st in
  let st2 :=
    if present (Obj.get Key.eqb field (formErrors st))
    then setFormErrors (Obj.delete Key.eqb field) st1
    else st1 in
  let st3 :=
    if (Key.eqb field Key.password || Key.eqb field Key.confirmPassword) &&
       match Obj.get Key.eqb Key.confirmPassword (formErrors st) with
       | Some (m :: _) => m =? mismatch
       | _ => false
       end
    then setFormErrors (Obj.delete Key.eqb Key.confirmPassword) st2
    else st2 in
  match error st with
  | Some e => if e =? "" then st3 else setError None st3
  | None => st3
  end.

(** [getErrorMessage]. *)
Definition getErrorMessage (st : state) (field : Key.t) : option string :=
  match Obj.get Key.eqb field (formErrors st) with
  | Some (m :: _) => if m =? "" then None else Some m
  | _ => None
  end.

(** The request of [handleSignUp] for the parsed data. *)
Definition signup_request (API_BASE_URL : option string) (data : SignUpFormData)
  : Web.request :=
  {| Web.url := JS.template API_BASE_URL ++ "/api/auth/signup";
     Web.method := Some "POST";
     Web.content_type := Some "application/json";
     Web.body := Some (JS.JObj
       [ ("name", JS.JStr (name data));
         ("email", JS.JStr (email data));
         ("mobileNumber",
          JS.JStr (JS.remove_spaces (JS.trim (mobileNumber data))));
         ("password", JS.JStr (password data)) ]);
     Web.credentials := None |}.

(** [handleSignUp] up to its [await fetch]: the next state, the effects,
    and whether a request is awaited. *)
Definition handleSignUp_start (h : Host.t) (API_BASE_URL : option string)
    (st : state) : state * list Web.effect * bool :=
  let st1 := setFormErrors (fun _ => []) (setError None st) in
  match Zod.safeParse (signUpSchema h (formData st)) with
  | Zod.Failure issues =>
      let flattenedErrors := Zod.fieldErrors Key.eqb issues in
      (setFormErrors (fun _ => flattenedErrors) st1,
       ([Web.PreventDefault;
         Web.Toast Web.toast_error "Please fix the errors marked below." None]
        ++ match Obj.keys flattenedErrors with
           | firstErrorField :: _ => [Web.Focus (Key.id firstErrorField)]
           | [] => []
           end)%list,
       false)
  | Zod.Success data =>
      if negb (isApiConfigured API_BASE_URL) then
        (setError (Some "Configuration error. Cannot proceed with signup.") st1,
         [Web.PreventDefault;
          Web.Toast Web.toast_error "Configuration Error" None],
         false)
      else
        (setLoading true st1,
         [Web.PreventDefault;
          Web.Toast Web.toast_loading "Creating your account..." None;
          Web.Fetch (signup_request API_BASE_URL data)],
         true)
  end.

Definition already_registered : list string :=
  ["This email is already registered."].

(** The [catch] and [finally] blocks of [handleSignUp] for an error whose
    [message] is [message]. *)
Definition handleSignUp_catch (message : string) (st : state)
  : state * list Web.effect :=
  let errorMessage :=
    if message =? "" then "An unexpected error occurred" else message in
  let st1 := setError (Some errorMessage) st in
  let shown :=
    [Web.Console Web.console_error "Signup Error:";
     Web.Toast Web.toast_error "Signup Failed" (Some (JS.JStr errorMessage))] in
  if JS.includes (JS.toLowerCase errorMessage) "already registered" ||
     JS.includes (JS.toLowerCase errorMessage) "email_1"
  then (setLoading false
          (setFormErrors (Obj.set Key.eqb Key.email already_registered) st1),
        (shown ++ [Web.Focus "email"])%list)
  else (setLoading false st1, shown).

(** [handleSignUp] from the point where [fetch] settles, on the state at
    that time. *)
Definition handleSignUp_resume (h : Host.t) (o : Web.outcome) (st : state)
  : state * list Web.effect :=
  match o with
  | Web.Rejected message => handleSignUp_catch message st
  | Web.Resolved response =>
      let responseData :=
        match Web.json response with
        | Some v => v
        | None => JS.JObj [("error", JS.JStr "Could not parse server response")]
        end in
      if negb (Web.ok response) then
        match JS.get responseData "error" with
        | None => handleSignUp_catch (Host.null_read_message h) st
        | Some e =>
            let fallback :=
              JS.JStr ("Signup failed (status " ++
                       JS.decimal (Web.status response) ++ ")") in
            match JS.ToString (JS.or_else e fallback) with
            | Some message => handleSignUp_catch message st
            | None => handleSignUp_catch (Host.no_primitive_message h) st
            end
        end
      else
        (setLoading false (setSuccess true st),
         [Web.Toast Web.toast_success "Account Created!"
            (Some (JS.JStr "Please check your email to verify your account."))])
  end.

(** [handleSignUp] with no event between the request and its outcome. *)
Definition handleSignUp (h : Host.t) (API_BASE_URL : option string)
    (o : Web.outcome) (st : state) : state * list Web.effect :=
  let '(st1, es1, awaiting) := handleSignUp_start h API_BASE_URL st in
  if awaiting then
    let '(st2, es2) := handleSignUp_resume h o st1 in (st2, (es1 ++ es2)%list)
  else (st1, es1).

(** What the user and the network can do to the page. *)
Inductive event : Type :=
| Change (field : Key.t) (value : string)
| TogglePassword
| Submit
| Settle (o : Web.outcome).

Definition step (h : Host.t) (API_BASE_URL : option string) (e : event)
    (st : state) : state :=
  match e with
  | Change field value => handleChange field value st
  | TogglePassword => setShowPassword (negb (showPassword st)) st
  | Submit => fst (fst (handleSignUp_start h API_BASE_URL st))
  | Settle o => fst (handleSignUp_resume h o st)
  end.

Fixpoint run (h : Host.t) (API_BASE_URL : option string) (es : list event)
    (st : state) : state :=
  match es with
  | [] => st
  | e :: r => run h API_BASE_URL r (step h API_BASE_URL e st)
  end.

(** The [disabled] attribute of the submit button. *)
Definition submit_disabled (API_BASE_URL : option string) (st : state) : bool :=
  loading st || negb (isApiConfigured API_BASE_URL).

(** What the component returns, as far as the state decides it: the
    success screen with the address it names, or the form with its error
    banner and the state of its submit button. *)
Inductive view : Type :=
| SuccessScreen (address : string)
| FormScreen (banner : option string) (disabled : bool).

Definition render (API_BASE_URL : option string) (st : state) : view :=
  if success st then SuccessScreen (email (formData st))
  else FormScreen
         match error st with
         | Some e => if e =? "" then None else Some e
         | None => None
         end
         (submit_disabled API_BASE_URL st).

(** [handleGoToLogin]. *)
Definition handleGoToLogin : list Web.effect := [Web.RouterPush "/login"].

(** The events that the rendered page lets through, given the number of
    requests that have not settled: the inputs and the submit button are
    there only on the form screen, the button only while it is not
    disabled, and an outcome arrives only for a request that is out. *)
Definition offered (API_BASE_URL : option string) (e : event) (st : state)
    (outstanding : nat) : bool :=
  match e with
  | Change _ _ => negb (success st)
  | TogglePassword => negb (success st)
  | Submit => negb (success st) && negb (submit_disabled API_BASE_URL st)
  | Settle _ => (0 <? outstanding)%nat
  end.

(** One event on the page and the count of requests that are out; [None]
    when the page does not offer the event. *)
Definition ui_step (h : Host.t) (API_BASE_URL : option string) (e : event)
    (s : state * nat) : option (state * nat) :=
  let '(st, outstanding) := s in
  if offered API_BASE_URL e st outstanding then
    match e with
    | Submit =>
        let '(st', es, _) := handleSignUp_start h API_BASE_URL st in
        Some (st', outstanding + List.length (Web.requests es))
    | Settle o => Some (fst (handleSignUp_resume h o st), outstanding - 1)
    | _ => Some (step h API_BASE_URL e st, outstanding)
    end
  else None.

Fixpoint ui_run (h : Host.t) (API_BASE_URL : option string) (es : list event)
    (s : state * nat) : option (state * nat) :=
  match es with
  | [] => Some s
  | e :: r =>
      match ui_step h API_BASE_URL e s with
      | Some s' => ui_run h API_BASE_URL r s'
      | None => None
      end
  end.

(** The schema rejects the value of key [k] in [d]: the error map of the
    parse has an entry for [k]. *)
Definition rejects (h : Host.t) (d : SignUpFormData) (k : Key.t) : bool :=
  present (Obj.get Key.eqb k (Zod.fieldErrors Key.eqb (snd (signUpSchema h d)))).

(** The message that [handleSignUp] tests for a registered email. *)
Definition mentions_registered (errorMessage : string) : bool :=
  JS.includes (JS.toLowerCase errorMessage) "already registered" ||
  JS.includes (JS.toLowerCase errorMessage) "email_1".

End SignUp.

(** ** The login page (src/app/login/page.tsx) *)

Module LoginPageContent.

Module Key.
Inductive t : Type := email | password.

Definition eqb (a b : t) : bool :=
  match a, b with
  | email, email | password, password => true
  | _, _ => false
  end.

(** The key as a string, which is also the [id] of the field's input. *)
Definition id (k : t) : string :=
  match k with
  | email => "email"
  | password => "password"
  end.
End Key.

Record FormData : Type := {
  email : string;
  password : string
}.

(** [formSchema] on a value of its input type. *)
Definition formSchema (h : Host.t) (input : FormData)
  : FormData * list (Zod.issue Key.t) :=
  let '(e, me) :=
    Zod.run_checks h [Zod.Email "Invalid email address"] (email input) in
  let '(p, mp) :=
    Zod.run_checks h [Zod.Min 6 "Password must be at least 6 characters"]
      (password input) in
  ({| email := e; password := p |},
   (map (Zod.Build_issue [Key.email]) me ++
    map (Zod.Build_issue [Key.password]) mp)%list).

(** The errors that the form library keeps of a failed parse: for each
    key, the message of its first issue. *)
Fixpoint first_messages (issues : list (Zod.issue Key.t))
  : list (Key.t * string) :=
  match issues with
  | [] => []
  | i :: r =>
      match Zod.path i with
      | k :: _ => (k, Zod.message i) :: Obj.delete Key.eqb k (first_messages r)
      | [] => first_messages r
      end
  end.

Record state : Type := {
  errors : list (Key.t * string);
  showPassword : bool;
  error : option JS.json;
  message : option string;
  checkingAuth : bool
}.

Definition initial : state :=
  {| errors := []; showPassword := false; error := None; message := None;
     checkingAuth := true |}.

Definition setErrors (e : list (Key.t * string)) (st : state) : state :=
  {| errors := e; showPassword := showPassword st; error := error st;
     message := message st; checkingAuth := checkingAuth st |}.

Definition setError (e : option JS.json) (st : state) : state :=
  {| errors := errors st; showPassword := showPassword st; error := e;
     message := message st; checkingAuth := checkingAuth st |}.

Definition setMessage (m : option string) (st : state) : state :=
  {| errors := errors st; showPassword := showPassword st; error := error st;
     message := m; checkingAuth := checkingAuth st |}.

Definition setCheckingAuth (b : bool) (st : state) : state :=
  {| errors := errors st; showPassword := showPassword st; error := error st;
     message := message st; checkingAuth := b |}.

(** What the component returns: the loading screen while [checkingAuth]
    holds, the form otherwise. *)
Inductive view : Type := LoadingFallback | Form.

Definition render (st : state) : view :=
  if checkingAuth st then LoadingFallback else Form.

Definition session_request (API_BASE_URL : option string) : Web.request :=
  {| Web.url := JS.template API_BASE_URL ++ "/api/auth/session";
     Web.method := None;
     Web.content_type := None;
     Web.body := None;
     Web.credentials := Some Web.include |}.

(** [data?.user] for what [res.json().catch(() => null)] settles to. *)
Definition session_user (r : Web.response) : JS.value :=
  match Web.json r with
  | Some data =>
      match JS.get data "user" with
      | Some u => u
      | None => None
      end
  | None => None
  end.

(** The effect of the first display, given how its [fetch] settles. *)
Definition sessionCheck (API_BASE_URL : option string) (o : Web.outcome)
    (st : state) : state * list Web.effect :=
  if JS.unset API_BASE_URL then
    (setCheckingAuth false st,
     [Web.Console Web.console_error
        "API Base URL (NEXT_PUBLIC_API_BASE_URL) is not configured.";
      Web.Toast Web.toast_error
        "Configuration error: Cannot connect to services." None])
  else
    let sent := Web.Fetch (session_request API_BASE_URL) in
    match o with
    | Web.Rejected _ =>
        (setCheckingAuth false st,
         [sent;
          Web.Console Web.console_error "Session check fetch failed:";
          Web.Toast Web.toast_error "Could not check session status." None])
    | Web.Resolved res =>
        if Web.ok res then
          if JS.truthy (session_user res) then
            (st,
             [sent;
              Web.Console Web.console_log "Active session found, redirecting...";
              Web.RouterPush "/"])
          else (setCheckingAuth false st, [sent])
        else
          (setCheckingAuth false st,
           sent ::
           (if negb (Web.status res =? 401)%nat && negb (Web.status res =? 200)%nat
            then [Web.Console Web.console_warn "Session check returned status:"]
            else []))
    end.

Definition login_request (API_BASE_URL : option string) (data : FormData)
  : Web.request :=
  {| Web.url := JS.template API_BASE_URL ++ "/api/auth/login";
     Web.method := Some "POST";
     Web.content_type := Some "application/json";
     Web.body := Some (JS.JObj [ ("email", JS.JStr (email data));
                                 ("password", JS.JStr (password data)) ]);
     Web.credentials := Some Web.include |}.

Definition connection_failure : string :=
  "Login failed. Please check your connection and try again.".

(** The message of a response that is not [ok]: the inner [try] reads the
    body, and its [catch] takes over when the body is no JSON document or
    the read of [error] throws. *)
Definition errorMessage (res : Web.response) : JS.json :=
  let generic :=
    JS.JStr ("Login failed (status " ++ JS.decimal (Web.status res) ++ ")") in
  match Web.json res with
  | Some errorData =>
      match JS.get errorData "error", JS.get errorData "message" with
      | Some e, Some m => JS.or_else e (JS.or_else m generic)
      | _, _ => generic
      end
  | None => generic
  end.

(** [onSubmit], given how its [fetch] settles. *)
Definition onSubmit (API_BASE_URL : option string) (o : Web.outcome)
    (data : FormData) (st : state) : state * list Web.effect :=
  if JS.unset API_BASE_URL then
    (st,
     [Web.Toast Web.toast_error "Configuration error: Cannot perform login." None])
  else
    let st1 := setMessage None (setError None st) in
    let sent :=
      [Web.Toast Web.toast_loading "Signing you in..." None;
       Web.Fetch (login_request API_BASE_URL data)] in
    match o with
    | Web.Rejected _ =>
        (setError (Some (JS.JStr connection_failure)) st1,
         (sent ++
          [Web.Console Web.console_error "Login request fetch failed:";
           Web.Toast Web.toast_error connection_failure None])%list)
    | Web.Resolved res =>
        if Web.ok res then
          (setMessage (Some "Redirecting to your dashboard...") st1,
           (sent ++
            [Web.Toast Web.toast_success "Login successful" None;
             Web.RouterPush "/";
             Web.RouterRefresh])%list)
        else
          (setError (Some (errorMessage res)) st1,
           (sent ++
            [Web.Toast Web.toast_error "Login Failed"
               (Some (JS.JStr "Please check your credentials."))])%list)
    end.

(** [handleSubmit(onSubmit)] of the form library on the values of the
    form: [onSubmit] runs on the parsed data when the schema accepts
    them; otherwise the errors are kept and the library moves the focus
    to the first field that has one. *)
Definition handleSubmit (h : Host.t) (API_BASE_URL : option string)
    (o : Web.outcome) (values : FormData) (st : state)
  : state * list Web.effect :=
  match Zod.safeParse (formSchema h values) with
  | Zod.Success data =>
      let '(st', es) := onSubmit API_BASE_URL o data (setErrors [] st) in
      (st', Web.PreventDefault :: es)
  | Zod.Failure issues =>
      let errs := first_messages issues in
      (setErrors errs st,
       Web.PreventDefault ::
       match Obj.keys errs with
       | firstError :: _ => [Web.Focus (Key.id firstError)]
       | [] => []
       end)
  end.

End LoginPageContent.

(** ** The other login page (src/unnamed/part_000) *)

Module LoginPage.

Record state : Type := {
  email : string;
  password : string;
  showPassword : bool;
  error : option JS.json;
  loading : bool
}.

Definition initial : state :=
  {| email := ""; password := ""; showPassword := false; error := None;
     loading := false |}.

Definition setEmail (v : string) (st : state) : state :=
  {| email := v; password := password st; showPassword := showPassword st;
     error := error st; loading := loading st |}.

Definition setPassword (v : string) (st : state) : state :=
  {| email := email st; password := v; showPassword := showPassword st;
     error := error st; loading := loading st |}.

Definition setError (e : option JS.json) (st : state) : state :=
  {| email := email st; password := password st;
     showPassword := showPassword st; error := e; loading := loading st |}.

Definition setLoading (b : bool) (st : state) : state :=
  {| email := email st; password := password st;
     showPassword := showPassword st; error := error st; loading := b |}.

Definition login_request (API_BASE_URL : option string) (st : state)
  : Web.request :=
  {| Web.url := JS.template API_BASE_URL ++ "/api/auth/login";
     Web.method := Some "POST";
     Web.content_type := Some "application/json";
     Web.body := Some (JS.JObj [ ("email", JS.JStr (email st));
                                 ("password", JS.JStr (password st)) ]);
     Web.credentials := Some Web.include |}.

(** [handleSubmit], given how its [fetch] settles.  The outer [catch]
    takes a rejected [fetch] and a throwing read of [error]; [finally]
    resets [loading] on every path that set it. *)
Definition handleSubmit (API_BASE_URL : option string) (o : Web.outcome)
    (st : state) : state * list Web.effect :=
  if (email st =? "") || (password st =? "") then
    (st,
     [Web.PreventDefault;
      Web.Toast Web.toast_error "Please enter your email and password" None])
  else if JS.unset API_BASE_URL then
    (st,
     [Web.PreventDefault;
      Web.Toast Web.toast_error
        "Configuration error: Cannot connect to services" None])
  else
    let st1 := setLoading true (setError None st) in
    let sent :=
      [Web.PreventDefault;
       Web.Toast Web.toast_loading "Signing you in..." None;
       Web.Fetch (login_request API_BASE_URL st)] in
    let caught :=
      (setLoading false
         (setError (Some (JS.JStr "Please check your connection and try again"))
            st1),
       (sent ++ [Web.Toast Web.toast_error "Connection error" None])%list) in
    match o with
    | Web.Rejected _ => caught
    | Web.Resolved res =>
        if Web.ok res then
          (setLoading false st1,
           (sent ++
            [Web.Toast Web.toast_success "Login successful" None;
             Web.RouterPush "/"])%list)
        else
          let errorData :=
            match Web.json res with
            | Some v => v
            | None => JS.JObj []
            end in
          match JS.get errorData "error" with
          | Some e =>
              let errorMessage := JS.or_else e (JS.JStr "Invalid credentials") in
              (setLoading false (setError (Some errorMessage) st1),
               (sent ++
                [Web.Toast Web.toast_error "Login Failed"
                   (Some errorMessage)])%list)
          | None => caught
          end
    end.

End LoginPage.

(** ** The greeting page (src/app/page.tsx) *)

Module Home.

Record state : Type := { message : string }.

Definition initial : state := {| message := "Click the button to fetch!" |}.

Definition failed : string := "Failed to fetch greeting.".

Definition greet_request (baseUrl : option string) : Web.request :=
  {| Web.url := JS.template baseUrl ++ "/api/greet?name=Alice";
     Web.method := None;
     Web.content_type := None;
     Web.body := None;
     Web.credentials := None |}.

(** [handleClick], given how its [fetch] settles.  The [catch] takes a
    rejected [fetch] and a rejected [res.text()] alike. *)
Definition handleClick (baseUrl : option string) (o : Web.outcome)
    (st : state) : state * list Web.effect :=
  let sent :=
    [Web.Console Web.console_log (JS.template baseUrl);
     Web.Console Web.console_log (JS.template baseUrl);
     Web.Fetch (greet_request baseUrl)] in
  match o with
  | Web.Rejected _ => ({| message := failed |}, sent)
  | Web.Resolved res =>
      let es :=
        (sent ++ [Web.Console Web.console_log "after calling base url..."])%list in
      match Web.text res with
      | Some text => ({| message := text |}, es)
      | None => ({| message := failed |}, es)
      end
  end.

(** The greeting component that follows the login page in
    src/app/login/page.tsx: [fetchGreeting], given how its [fetch]
    settles. *)
Definition fetchGreeting (API_URL : option string) (o : Web.outcome)
    (st : state) : state * list Web.effect :=
  let sent := [Web.Fetch (greet_request API_URL)] in
  match o with
  | Web.Rejected _ => ({| message := failed |}, sent)
  | Web.Resolved res =>
      match Web.text res with
      | Some text => ({| message := text |}, sent)
      | None => ({| message := failed |}, sent)
      end
  end.

End Home.

(** * Properties *)

(** ** Concrete inputs of the runs *)

Definition api : option string := Some "https://api.example.com".

Definition credentials_rejected : Web.response :=
  {| Web.status := 401;
     Web.json := Some (JS.JObj [("error", JS.JStr "Invalid credentials")]);
     Web.text := None |}.

Definition server_error_without_body : Web.response :=
  {| Web.status := 500; Web.json := None; Web.text := None |}.

Definition session_of_user : Web.response :=
  {| Web.status := 200;
     Web.json := Some (JS.JObj [("user", JS.JObj [("id", JS.JStr "u1")])]);
     Web.text := None |}.

Definition session_without_user : Web.response :=
  {| Web.status := 200;
     Web.json := Some (JS.JObj [("authenticated", JS.JBool false)]);
     Web.text := None |}.

Definition user_behind_error : Web.response :=
  {| Web.status := 500;
     Web.json := Some (JS.JObj [("user", JS.JObj [("id", JS.JStr "u1")])]);
     Web.text := None |}.

Definition credentials_typed : LoginPage.state :=
  LoginPage.setPassword "secret1" (LoginPage.setEmail "ann@example.com"
    LoginPage.initial).

Definition credentials_parsed : LoginPageContent.FormData :=
  {| LoginPageContent.email := "ann@example.com";
     LoginPageContent.password := "secret1" |}.

Definition registration : SignUp.SignUpFormData :=
  {| SignUp.name := "Ann Lee";
     SignUp.email := "ann@example.com";
     SignUp.mobileNumber := "+1 555 010 9999";
     SignUp.password := "secret1";
     SignUp.confirmPassword := "secret1" |}.

Definition registration_filled : SignUp.state :=
  SignUp.setFormData registration SignUp.initial.

Definition created : Web.response :=
  {| Web.status := 201;
     Web.json := Some (JS.JObj [("message", JS.JStr "created")]);
     Web.text := None |}.

Definition unreachable : Web.outcome := Web.Rejected "Failed to fetch".

Definition unconfirmed : SignUp.state :=
  SignUp.setFormData
    (SignUp.write SignUp.Key.confirmPassword EmptyString registration)
    SignUp.initial.

Definition mistyped : SignUp.state :=
  SignUp.setFormData
    (SignUp.write SignUp.Key.confirmPassword "secret2" registration)
    SignUp.initial.

Definition email_taken : Web.response :=
  {| Web.status := 409;
     Web.json := Some (JS.JObj [("error", JS.JStr "Email already registered")]);
     Web.text := None |}.

(** A user fills the form in with a valid registration and submits it,
    and the server answers that the email is taken. *)
Definition rejected_registration : list SignUp.event :=
  [ SignUp.Change SignUp.Key.name "Ann Lee";
    SignUp.Change SignUp.Key.email "ann@example.com";
    SignUp.Change SignUp.Key.mobileNumber "+1 555 010 9999";
    SignUp.Change SignUp.Key.password "secret1";
    SignUp.Change SignUp.Key.confirmPassword "secret1";
    SignUp.Submit;
    SignUp.Settle (Web.Resolved email_taken) ].

(** ** The validator, rule by rule *)








(** The messages that [signUpSchema] raises under key [k], in order. *)
Definition violations (h : Host.t) (d : SignUp.SignUpFormData)
    (k : SignUp.Key.t) : list string :=
  match k with
  | SignUp.Key.name =>
      if (String.length (JS.trim (SignUp.name d)) <? 1)%nat
      then ["Full name is required"] else []
  | SignUp.Key.email =>
      ((if (String.length (JS.trim (SignUp.email d)) <? 1)%nat
        then ["Email is required"] else []) ++
       (if Host.email_shape h (JS.trim (SignUp.email d))
        then [] else ["Email address is invalid"]))%list
  | SignUp.Key.mobileNumber =>
      ((if (String.length (JS.trim (SignUp.mobileNumber d)) <? 8)%nat
        then [SignUp.invalid_mobile] else []) ++
       (if SignUp.mobile_pattern (JS.trim (SignUp.mobileNumber d))
        then [] else [SignUp.invalid_mobile]))%list
  | SignUp.Key.password =>
      if (String.length (SignUp.password d) <? 6)%nat
      then ["Password must be at least 6 characters"] else []
  | SignUp.Key.confirmPassword =>
      ((if (String.length (SignUp.confirmPassword d) <? 1)%nat
        then ["Please confirm your password."] else []) ++
       (if SignUp.password d =? SignUp.confirmPassword d
        then [] else [SignUp.mismatch]))%list
  end.



(** The current value of field [k] is one that the validator rejects. *)
Definition invalid (h : Host.t) (d : SignUp.SignUpFormData) (k : SignUp.Key.t)
  : Prop :=
  Obj.get SignUp.Key.eqb k
    (Zod.fieldErrors SignUp.Key.eqb (snd (SignUp.signUpSchema h d))) <> None.

(** What the handlers keep true of an entry [msgs] of the error map under
    key [k], for the current data [d]. *)
Definition entry_ok (h : Host.t) (d : SignUp.SignUpFormData)
    (k : SignUp.Key.t) (msgs : list string) : Prop :=
  match k with
  | SignUp.Key.confirmPassword =>
      SignUp.confirmPassword d = "" \/
      (hd_error msgs = Some SignUp.mismatch /\
       SignUp.password d <> SignUp.confirmPassword d)
  | SignUp.Key.email =>
      msgs = SignUp.already_registered \/ violations h d k <> []
  | _ => violations h d k <> []
  end.

Definition entries_ok (h : Host.t) (st : SignUp.state) : Prop :=
  forall k msgs,
    Obj.get SignUp.Key.eqb k (SignUp.formErrors st) = Some msgs ->
    entry_ok h (SignUp.formData st) k msgs.

(** A user fills the form in, submits it and the account is created. *)
Definition accepted_registration : list SignUp.event :=
  [ SignUp.Change SignUp.Key.name "Ann Lee";
    SignUp.Change SignUp.Key.email " ann@example.com ";
    SignUp.Change SignUp.Key.mobileNumber "+1 555 010 9999";
    SignUp.Change SignUp.Key.password "secret1";
    SignUp.Change SignUp.Key.confirmPassword "secret1";
    SignUp.Submit;
    SignUp.Change SignUp.Key.name "Ann B. Lee";
    SignUp.Settle (Web.Resolved created) ].

(** The text of a mobile number as it is sent: an optional plus sign,
    then digits and hyphens only. *)
Definition plain_number (s : string) : bool :=
  JS.forall_chars (fun c => JS.is_digit c || Ascii.eqb c "-")
    match s with
    | String "+" r => r
    | _ => s
    end.

(** The message of the error that [handleSignUp] throws or meets when the
    request did not end in an [ok] response. *)
Definition signup_failure_message (h : Host.t) (o : Web.outcome) : string :=
  match o with
  | Web.Rejected m => m
  | Web.Resolved res =>
      match Web.json res with
      | None => "Could not parse server response"
      | Some JS.JNull => Host.null_read_message h
      | Some (JS.JObj ms) =>
          match JS.ToString
                  (JS.or_else (JS.member "error" ms)
                     (JS.JStr ("Signup failed (status " ++
                               JS.decimal (Web.status res) ++ ")")))
          with
          | Some message => message
          | None => Host.no_primitive_message h
          end
      | Some _ =>
          "Signup failed (status " ++ JS.decimal (Web.status res) ++ ")"
      end
  end.

Definition failed_outcome (o : Web.outcome) : bool :=
  match o with
  | Web.Rejected _ => true
  | Web.Resolved res => negb (Web.ok res)
  end.

(** What an edit leaves of the error banner. *)
Definition clear_banner (e : option string) : option string :=
  match e with
  | Some m => if m =? "" then Some m else None
  | None => None
  end.

(** The first message under confirmPassword is the mismatch. *)
Definition shows_mismatch (o : SignUp.FormErrors) : bool :=
  match Obj.get SignUp.Key.eqb SignUp.Key.confirmPassword o with
  | Some (m :: _) => m =? SignUp.mismatch
  | _ => false
  end.

(** What an edit of [field] leaves of the error map. *)
Definition after_edit (field : SignUp.Key.t) (o : SignUp.FormErrors)
  : SignUp.FormErrors :=
  if (SignUp.Key.eqb field SignUp.Key.password ||
      SignUp.Key.eqb field SignUp.Key.confirmPassword) && shows_mismatch o
  then Obj.delete SignUp.Key.eqb SignUp.Key.confirmPassword
         (Obj.delete SignUp.Key.eqb field o)
  else Obj.delete SignUp.Key.eqb field o.

(** The text does not begin with white space. *)
Definition starts_tight (s : string) : Prop :=
  match s with
  | String c _ => JS.is_space c = false
  | EmptyString => True
  end.

(** What holds of the signup page and the number of its requests that
    have not settled, along the runs that the page offers. *)
Definition in_flight (s : SignUp.state * nat) : Prop :=
  snd s = (if SignUp.loading (fst s) then 1 else 0) /\
  (SignUp.loading (fst s) = true ->
   SignUp.error (fst s) = None /\ SignUp.formErrors (fst s) = [] /\
   SignUp.success (fst s) = false) /\
  (SignUp.success (fst s) = true ->
   SignUp.error (fst s) = None /\ SignUp.formErrors (fst s) = [] /\
   SignUp.loading (fst s) = false).

(** ** Strings *)

Lemma startsWith_append (t s : string) : JS.startsWith (t ++ s) t = true.
Proof.
  induction t as [|c t IH]; simpl.
  - reflexivity.
  - now rewrite Ascii.eqb_refl, IH.
Qed.

Lemma includes_here (s t : string) :
  JS.startsWith s t = true -> JS.includes s t = true.
Proof. intros H; destruct s; simpl in *; now rewrite H. Qed.

Lemma includes_append (a s t : string) :
  JS.includes s t = true -> JS.includes (a ++ s) t = true.
Proof.
  intros H; induction a as [|c a IH]; simpl.
  - exact H.
  - rewrite IH. apply orb_true_r.
Qed.

Lemma includes_middle (a t b : string) : JS.includes (a ++ t ++ b) t = true.
Proof. apply includes_append, includes_here, startsWith_append. Qed.

(** ** The greeting page *)

(** C10: every click sets the message and none fails: when the fetch
    resolves the message is the text of the body, whatever the status;
    when the fetch rejects (or the body cannot be read) the message is
    exactly the fixed failure text. *)
Theorem handleClick_sets_message :
  forall (baseUrl : option string) (o : Web.outcome) (st : Home.state),
    Home.message (fst (Home.handleClick baseUrl o st)) =
    match o with
    | Web.Resolved res =>
        match Web.text res with
        | Some body => body
        | None => "Failed to fetch greeting."
        end
    | Web.Rejected _ => "Failed to fetch greeting."
    end.
Proof.
  intros baseUrl [m|res] st; simpl.
  - reflexivity.
  - destruct (Web.text res); reflexivity.
Qed.

(** ** The login pages *)

(** C5: when the login endpoint answers 401 with the body
    [{error: Invalid credentials}], the error that either login page
    shows is exactly that text. *)
Theorem login_shows_server_error :
  forall (API_BASE_URL : option string) (txt : option string),
    JS.unset API_BASE_URL = false ->
    let res :=
      {| Web.status := 401;
         Web.json := Some (JS.JObj [("error", JS.JStr "Invalid credentials")]);
         Web.text := txt |} in
    (forall data st,
        LoginPageContent.error
          (fst (LoginPageContent.onSubmit API_BASE_URL (Web.Resolved res) data st))
        = Some (JS.JStr "Invalid credentials")) /\
    (forall st,
        LoginPage.email st <> "" -> LoginPage.password st <> "" ->
        LoginPage.error
          (fst (LoginPage.handleSubmit API_BASE_URL (Web.Resolved res) st))
        = Some (JS.JStr "Invalid credentials")).
Proof.
  intros base txt Hbase res; split.
  - intros data st. unfold LoginPageContent.onSubmit. rewrite Hbase.
    reflexivity.
  - intros st He Hp. unfold LoginPage.handleSubmit.
    apply String.eqb_neq in He, Hp. rewrite He, Hp, Hbase. reflexivity.
Qed.

Lemma login_shows_server_error_witness :
  JS.unset api = false /\
  LoginPageContent.error
    (fst (LoginPageContent.onSubmit api (Web.Resolved credentials_rejected)
            credentials_parsed LoginPageContent.initial))
  = Some (JS.JStr "Invalid credentials") /\
  LoginPage.error
    (fst (LoginPage.handleSubmit api (Web.Resolved credentials_rejected)
            credentials_typed))
  = Some (JS.JStr "Invalid credentials").
Proof.
  split; [reflexivity|].
  destruct (login_shows_server_error api None eq_refl) as [H1 H2].
  split.
  - exact (H1 credentials_parsed LoginPageContent.initial).
  - apply (H2 credentials_typed); discriminate.
Defined.

(** C6, as the code has it: for a status N that is not a success and a
    body that is no JSON document, the login page of src/app/login shows
    [Login failed (status N)], which contains [status N], and the other
    login page shows the fixed text [Invalid credentials]; each has sent
    its one request and sends no other. *)
Theorem login_failure_without_body :
  forall (API_BASE_URL : option string) (res : Web.response),
    JS.unset API_BASE_URL = false ->
    Web.ok res = false ->
    Web.json res = None ->
    (forall data st,
        let r := LoginPageContent.onSubmit API_BASE_URL (Web.Resolved res) data st in
        let shown := "Login failed (status " ++ JS.decimal (Web.status res) ++ ")" in
        LoginPageContent.error (fst r) = Some (JS.JStr shown) /\
        JS.includes shown ("status " ++ JS.decimal (Web.status res)) = true /\
        Web.requests (snd r) = [LoginPageContent.login_request API_BASE_URL data]) /\
    (forall st,
        LoginPage.email st <> "" -> LoginPage.password st <> "" ->
        let r := LoginPage.handleSubmit API_BASE_URL (Web.Resolved res) st in
        LoginPage.error (fst r) = Some (JS.JStr "Invalid credentials") /\
        Web.requests (snd r) = [LoginPage.login_request API_BASE_URL st]).
Proof.
  intros base res Hbase Hok Hjson; split.
  - intros data st r shown; subst r shown.
    unfold LoginPageContent.onSubmit, LoginPageContent.errorMessage.
    rewrite Hbase, Hok, Hjson.
    split; [reflexivity | split; [ | reflexivity]].
    exact (includes_middle "Login failed ("
             ("status " ++ JS.decimal (Web.status res)) ")").
  - intros st He Hp r; subst r. unfold LoginPage.handleSubmit.
    apply String.eqb_neq in He, Hp. rewrite He, Hp, Hbase, Hok, Hjson; simpl.
    split; reflexivity.
Qed.

Lemma login_failure_without_body_witness :
  JS.unset api = false /\
  Web.ok server_error_without_body = false /\
  Web.json server_error_without_body = None /\
  LoginPageContent.error
    (fst (LoginPageContent.onSubmit api (Web.Resolved server_error_without_body)
            credentials_parsed LoginPageContent.initial))
  = Some (JS.JStr "Login failed (status 500)") /\
  LoginPage.error
    (fst (LoginPage.handleSubmit api (Web.Resolved server_error_without_body)
            credentials_typed))
  = Some (JS.JStr "Invalid credentials").
Proof.
  do 3 (split; [reflexivity|]).
  destruct (login_failure_without_body api server_error_without_body
              eq_refl eq_refl eq_refl) as [H1 H2].
  split.
  - exact (proj1 (H1 credentials_parsed LoginPageContent.initial)).
  - apply (H2 credentials_typed); discriminate.
Defined.

(** C6 as stated fails on the login page of src/unnamed/part_000: at
    status 500 with a body that is no JSON document the message shown is
    [Invalid credentials], which does not contain [status 500]. *)
Lemma other_login_fallback_omits_status :
  LoginPage.error
    (fst (LoginPage.handleSubmit api (Web.Resolved server_error_without_body)
            credentials_typed))
  = Some (JS.JStr "Invalid credentials") /\
  JS.includes "Invalid credentials"
    ("status " ++ JS.decimal (Web.status server_error_without_body)) = false.
Proof. split; reflexivity. Qed.

(** C7, as the code has it: with the base URL set, the first display of
    the login page sends one request to the session endpoint, with
    cookies, and no second one.  When the response is a success whose
    body is an object with a truthy [user], the page redirects to the
    home route and keeps the loading screen in place of the form.  When
    the response is no success, or its body is no JSON document, no
    object, or an object without a truthy [user], or the request fails,
    the page shows the form and does not redirect.  With the base URL not
    set no request is sent and the form is shown. *)
Theorem sessionCheck_single_shot :
  forall (API_BASE_URL : option string) (o : Web.outcome),
    let r := LoginPageContent.sessionCheck API_BASE_URL o LoginPageContent.initial in
    Web.requests (snd r) =
      (if JS.unset API_BASE_URL then []
       else [ {| Web.url := JS.template API_BASE_URL ++ "/api/auth/session";
                 Web.method := None; Web.content_type := None;
                 Web.body := None; Web.credentials := Some Web.include |} ]) /\
    (forall res ms u,
        JS.unset API_BASE_URL = false ->
        o = Web.Resolved res ->
        Web.ok res = true ->
        Web.json res = Some (JS.JObj ms) ->
        JS.member "user" ms = Some u ->
        JS.truthy (Some u) = true ->
        In (Web.RouterPush "/") (snd r) /\
        LoginPageContent.render (fst r) = LoginPageContent.LoadingFallback) /\
    (JS.unset API_BASE_URL = true \/
     (exists m, o = Web.Rejected m) \/
     (exists res,
         o = Web.Resolved res /\
         (Web.ok res = false \/
          Web.json res = None \/
          (exists v, Web.json res = Some v /\ forall ms, v <> JS.JObj ms) \/
          (exists ms, Web.json res = Some (JS.JObj ms) /\
                      JS.truthy (JS.member "user" ms) = false))) ->
     LoginPageContent.render (fst r) = LoginPageContent.Form /\
     ~ In (Web.RouterPush "/") (snd r)).
Proof.
  intros base o r; subst r; unfold LoginPageContent.sessionCheck.
  split; [|split].
  - destruct (JS.unset base); [reflexivity|].
    destruct o as [m|res]; [reflexivity|].
    destruct (Web.ok res); [destruct (JS.truthy _); reflexivity|].
    destruct (negb _ && negb _); reflexivity.
  - intros res ms u Hb -> Hok Hj Hm Hu.
    assert (Hs : JS.truthy (LoginPageContent.session_user res) = true).
    { unfold LoginPageContent.session_user. rewrite Hj. simpl. now rewrite Hm. }
    rewrite Hb, Hok, Hs. split; [simpl; auto|reflexivity].
  - intros H. destruct (JS.unset base) eqn:Hb.
    + split; [reflexivity|]. simpl. intuition discriminate.
    + destruct H as [H|[[m ->]|[res [-> H]]]]; [discriminate| |].
      * split; [reflexivity|]. simpl. intuition discriminate.
      * destruct (Web.ok res) eqn:Hok.
        -- assert (Hs : JS.truthy (LoginPageContent.session_user res) = false).
           { unfold LoginPageContent.session_user.
             destruct H as [H|[H|[[v [H Hv]]|[ms [H Hm]]]]].
             - discriminate.
             - now rewrite H.
             - rewrite H. destruct v; try reflexivity. now elim (Hv members).
             - rewrite H. simpl. exact Hm. }
           rewrite Hs. split; [reflexivity|]. simpl. intuition discriminate.
        -- split; [reflexivity|].
           destruct (negb _ && negb _); simpl; intuition discriminate.
Qed.

Lemma sessionCheck_single_shot_witness :
  (JS.unset api = false /\
   Web.ok session_of_user = true /\
   Web.json session_of_user =
     Some (JS.JObj [("user", JS.JObj [("id", JS.JStr "u1")])]) /\
   JS.member "user" [("user", JS.JObj [("id", JS.JStr "u1")])] =
     Some (JS.JObj [("id", JS.JStr "u1")]) /\
   JS.truthy (Some (JS.JObj [("id", JS.JStr "u1")])) = true) /\
  In (Web.RouterPush "/")
     (snd (LoginPageContent.sessionCheck api (Web.Resolved session_of_user)
             LoginPageContent.initial)) /\
  LoginPageContent.render
    (fst (LoginPageContent.sessionCheck api (Web.Resolved session_of_user)
            LoginPageContent.initial))
  = LoginPageContent.LoadingFallback /\
  LoginPageContent.render
    (fst (LoginPageContent.sessionCheck api (Web.Resolved session_without_user)
            LoginPageContent.initial))
  = LoginPageContent.Form.
Proof.
  split; [repeat split|].
  destruct (sessionCheck_single_shot api (Web.Resolved session_of_user))
    as [_ [H _]].
  destruct (H session_of_user [("user", JS.JObj [("id", JS.JStr "u1")])]
              (JS.JObj [("id", JS.JStr "u1")])
              eq_refl eq_refl eq_refl eq_refl eq_refl eq_refl) as [H1 H2].
  split; [exact H1|]. split; [exact H2|].
  destruct (sessionCheck_single_shot api (Web.Resolved session_without_user))
    as [_ [_ H3]].
  apply H3. right. right. exists session_without_user.
  split; [reflexivity|]. right. right. right.
  exists [("authenticated", JS.JBool false)]. split; reflexivity.
Defined.

(** C7 as stated fails on a response that holds a user but is no
    success: at status 500 with a user in the body the page shows the
    form and does not redirect. *)
Lemma user_payload_on_error_status_shows_form :
  JS.truthy (LoginPageContent.session_user user_behind_error) = true /\
  LoginPageContent.render
    (fst (LoginPageContent.sessionCheck api (Web.Resolved user_behind_error)
            LoginPageContent.initial))
  = LoginPageContent.Form /\
  ~ In (Web.RouterPush "/")
      (snd (LoginPageContent.sessionCheck api (Web.Resolved user_behind_error)
              LoginPageContent.initial)).
Proof.
  split; [reflexivity|]. split; [reflexivity|].
  simpl. intuition discriminate.
Qed.

(** ** Requests of the submission handlers *)

Lemma requests_app (a b : list Web.effect) :
  Web.requests (a ++ b) = (Web.requests a ++ Web.requests b)%list.
Proof.
  induction a as [|e a IH]; simpl; [reflexivity|].
  destruct e; simpl; now rewrite IH.
Qed.

Lemma handleSignUp_catch_requests (m : string) (st : SignUp.state) :
  Web.requests (snd (SignUp.handleSignUp_catch m st)) = [].
Proof.
  unfold SignUp.handleSignUp_catch.
  destruct (JS.includes _ _ || JS.includes _ _); reflexivity.
Qed.

Lemma handleSignUp_resume_requests (h : Host.t) (o : Web.outcome)
    (st : SignUp.state) :
  Web.requests (snd (SignUp.handleSignUp_resume h o st)) = [].
Proof.
  unfold SignUp.handleSignUp_resume. destruct o as [m|res].
  - apply handleSignUp_catch_requests.
  - destruct (negb (Web.ok res)); [|reflexivity].
    destruct (JS.get _ _); [destruct (JS.ToString _)|];
      apply handleSignUp_catch_requests.
Qed.

Lemma handleSignUp_requests (h : Host.t) (base : option string)
    (o : Web.outcome) (st : SignUp.state) :
  Web.requests (snd (SignUp.handleSignUp h base o st)) =
  Web.requests (snd (fst (SignUp.handleSignUp_start h base st))).
Proof.
  unfold SignUp.handleSignUp.
  destruct (SignUp.handleSignUp_start h base st) as [[st1 es1] [|]]; simpl.
  - pose proof (handleSignUp_resume_requests h o st1) as H.
    destruct (SignUp.handleSignUp_resume h o st1) as [st2 es2]; simpl in *.
    now rewrite requests_app, H, app_nil_r.
  - reflexivity.
Qed.

Lemma handleSignUp_start_requests_invalid (h : Host.t) (base : option string)
    (st : SignUp.state) issues :
  Zod.safeParse (SignUp.signUpSchema h (SignUp.formData st)) = Zod.Failure issues ->
  Web.requests (snd (fst (SignUp.handleSignUp_start h base st))) = [].
Proof.
  intros H. unfold SignUp.handleSignUp_start. rewrite H; simpl.
  destruct (Obj.keys _); reflexivity.
Qed.

Lemma onSubmit_requests (base : option string) (o : Web.outcome)
    (data : LoginPageContent.FormData) (st : LoginPageContent.state) :
  Web.requests (snd (LoginPageContent.onSubmit base o data st)) =
  if JS.unset base then [] else [LoginPageContent.login_request base data].
Proof.
  unfold LoginPageContent.onSubmit. destruct (JS.unset base); [reflexivity|].
  destruct o as [m|res]; [reflexivity|]. destruct (Web.ok res); reflexivity.
Qed.

Lemma other_handleSubmit_requests (base : option string) (o : Web.outcome)
    (st : LoginPage.state) :
  Web.requests (snd (LoginPage.handleSubmit base o st)) =
  if (LoginPage.email st =? "") || (LoginPage.password st =? "") || JS.unset base
  then [] else [LoginPage.login_request base st].
Proof.
  unfold LoginPage.handleSubmit.
  destruct ((LoginPage.email st =? "") || (LoginPage.password st =? ""));
    [reflexivity|]. simpl.
  destruct (JS.unset base); [reflexivity|].
  destruct o as [m|res]; [reflexivity|].
  destruct (Web.ok res); [reflexivity|].
  destruct (JS.get _ _); reflexivity.
Qed.

(** C1, as the code has it: with the base URL set, every submission of a
    validated record sends exactly one request, a POST of JSON to the
    base URL followed by the fixed path, however that request settles.
    Both login pages send it with credentials included; the signup page
    leaves the credentials option out of its request. *)
Theorem submit_sends_one_post :
  forall (h : Host.t) (base : string) (o : Web.outcome),
    base <> "" ->
    (forall data st,
        Web.requests (snd (LoginPageContent.onSubmit (Some base) o data st)) =
        [ {| Web.url := base ++ "/api/auth/login";
             Web.method := Some "POST";
             Web.content_type := Some "application/json";
             Web.body := Some (JS.JObj
               [ ("email", JS.JStr (LoginPageContent.email data));
                 ("password", JS.JStr (LoginPageContent.password data)) ]);
             Web.credentials := Some Web.include |} ]) /\
    (forall st,
        LoginPage.email st <> "" -> LoginPage.password st <> "" ->
        Web.requests (snd (LoginPage.handleSubmit (Some base) o st)) =
        [ {| Web.url := base ++ "/api/auth/login";
             Web.method := Some "POST";
             Web.content_type := Some "application/json";
             Web.body := Some (JS.JObj
               [ ("email", JS.JStr (LoginPage.email st));
                 ("password", JS.JStr (LoginPage.password st)) ]);
             Web.credentials := Some Web.include |} ]) /\
    (forall st data,
        Zod.safeParse (SignUp.signUpSchema h (SignUp.formData st)) =
          Zod.Success data ->
        exists payload,
          Web.requests (snd (SignUp.handleSignUp h (Some base) o st)) =
          [ {| Web.url := base ++ "/api/auth/signup";
               Web.method := Some "POST";
               Web.content_type := Some "application/json";
               Web.body := Some payload;
               Web.credentials := None |} ]).
Proof.
  intros h base o Hbase. apply String.eqb_neq in Hbase.
  assert (Hset : JS.unset (Some base) = false) by exact Hbase.
  split; [|split].
  - intros data st. rewrite onSubmit_requests, Hset. reflexivity.
  - intros st He Hp. apply String.eqb_neq in He, Hp.
    rewrite other_handleSubmit_requests, He, Hp, Hset. reflexivity.
  - intros st data Hok. rewrite handleSignUp_requests.
    unfold SignUp.handleSignUp_start, SignUp.isApiConfigured.
    rewrite Hok, Hset. simpl. eexists. reflexivity.
Qed.

Lemma submit_sends_one_post_witness :
  "https://api.example.com" <> "" /\
  Zod.safeParse (SignUp.signUpSchema Host.browser
                   (SignUp.formData registration_filled)) =
    Zod.Success registration /\
  exists payload,
    Web.requests (snd (SignUp.handleSignUp Host.browser api
                         (Web.Resolved created) registration_filled)) =
    [ {| Web.url := "https://api.example.com/api/auth/signup";
         Web.method := Some "POST";
         Web.content_type := Some "application/json";
         Web.body := Some payload;
         Web.credentials := None |} ].
Proof.
  split; [discriminate|]. split; [reflexivity|].
  refine (proj2 (proj2 (submit_sends_one_post Host.browser
            "https://api.example.com" (Web.Resolved created) _))
            registration_filled registration eq_refl).
  discriminate.
Defined.

(** C1 as stated fails on the signup page: the one request of a validated
    registration carries no credentials option, so no request of the
    submission has credentials included. *)
Lemma signup_post_without_credentials :
  map Web.credentials
    (Web.requests (snd (SignUp.handleSignUp Host.browser api
                          (Web.Resolved created) registration_filled)))
  = [None] /\
  ~ In (Some Web.include)
      (map Web.credentials
         (Web.requests (snd (SignUp.handleSignUp Host.browser api
                               (Web.Resolved created) registration_filled)))).
Proof.
  split; [reflexivity|]. simpl. intros [E|[]]; discriminate.
Qed.

(** C2, as the code has it: while the base URL is not set no submit
    attempt sends a request, on any of the three pages.  An attempt whose
    record passes the page's validation ends in the configuration error
    of the page; the attempt is not carried further.  On the signup page
    an attempt whose record fails the validation ends in the field errors
    of the validation, with no configuration error. *)
Theorem unconfigured_submit_is_refused :
  forall (h : Host.t) (API_BASE_URL : option string) (o : Web.outcome),
    JS.unset API_BASE_URL = true ->
    (forall st, Web.requests (snd (SignUp.handleSignUp h API_BASE_URL o st)) = []) /\
    (forall values st,
        Web.requests
          (snd (LoginPageContent.handleSubmit h API_BASE_URL o values st)) = []) /\
    (forall st, Web.requests (snd (LoginPage.handleSubmit API_BASE_URL o st)) = []) /\
    (forall st data,
        Zod.safeParse (SignUp.signUpSchema h (SignUp.formData st)) =
          Zod.Success data ->
        SignUp.error (fst (SignUp.handleSignUp h API_BASE_URL o st)) =
          Some "Configuration error. Cannot proceed with signup." /\
        snd (SignUp.handleSignUp h API_BASE_URL o st) =
          [Web.PreventDefault;
           Web.Toast Web.toast_error "Configuration Error" None]) /\
    (forall data st,
        LoginPageContent.onSubmit API_BASE_URL o data st =
        (st, [Web.Toast Web.toast_error
                "Configuration error: Cannot perform login." None])) /\
    (forall st,
        LoginPage.email st <> "" -> LoginPage.password st <> "" ->
        LoginPage.handleSubmit API_BASE_URL o st =
        (st, [Web.PreventDefault;
              Web.Toast Web.toast_error
                "Configuration error: Cannot connect to services" None])) /\
    (forall st issues,
        Zod.safeParse (SignUp.signUpSchema h (SignUp.formData st)) =
          Zod.Failure issues ->
        SignUp.error (fst (SignUp.handleSignUp h API_BASE_URL o st)) = None /\
        SignUp.formErrors (fst (SignUp.handleSignUp h API_BASE_URL o st)) =
          Zod.fieldErrors SignUp.Key.eqb issues).
Proof.
  intros h base o Hbase. repeat apply conj.
  - intros st. rewrite handleSignUp_requests.
    destruct (Zod.safeParse (SignUp.signUpSchema h (SignUp.formData st)))
      as [data|issues] eqn:Hp.
    + unfold SignUp.handleSignUp_start, SignUp.isApiConfigured.
      rewrite Hp, Hbase. reflexivity.
    + now apply handleSignUp_start_requests_invalid with (issues := issues).
  - intros values st. unfold LoginPageContent.handleSubmit.
    destruct (Zod.safeParse _) as [data|issues];
      [|simpl; destruct (Obj.keys _); reflexivity].
    pose proof (onSubmit_requests base o data
                  (LoginPageContent.setErrors [] st)) as H.
    destruct (LoginPageContent.onSubmit _ _ _ _) as [st' es]; simpl in *.
    now rewrite H, Hbase.
  - intros st. rewrite other_handleSubmit_requests, Hbase.
    now rewrite orb_true_r.
  - intros st data Hp. unfold SignUp.handleSignUp, SignUp.handleSignUp_start,
      SignUp.isApiConfigured. rewrite Hp, Hbase. split; reflexivity.
  - intros data st. unfold LoginPageContent.onSubmit. now rewrite Hbase.
  - intros st He Hp. apply String.eqb_neq in He, Hp.
    unfold LoginPage.handleSubmit. now rewrite He, Hp, Hbase.
  - intros st issues Hp. unfold SignUp.handleSignUp, SignUp.handleSignUp_start.
    rewrite Hp. split; reflexivity.
Qed.

Lemma unconfigured_submit_is_refused_witness :
  JS.unset None = true /\
  Zod.safeParse (SignUp.signUpSchema Host.browser
                   (SignUp.formData registration_filled)) =
    Zod.Success registration /\
  Web.requests (snd (SignUp.handleSignUp Host.browser None unreachable
                       registration_filled)) = [] /\
  SignUp.error (fst (SignUp.handleSignUp Host.browser None unreachable
                       registration_filled)) =
    Some "Configuration error. Cannot proceed with signup.".
Proof.
  split; [reflexivity|]. split; [reflexivity|].
  destruct (unconfigured_submit_is_refused Host.browser None unreachable eq_refl)
    as [H1 [_ [_ [H4 _]]]].
  split.
  - exact (H1 registration_filled).
  - exact (proj1 (H4 registration_filled registration eq_refl)).
Defined.

(** C2 as stated fails on the signup page: with the base URL not set, a
    submit attempt of the empty form ends in the field errors of the
    validation and no configuration error is reported. *)
Lemma unconfigured_signup_reports_fields_first :
  SignUp.error (fst (SignUp.handleSignUp Host.browser None unreachable
                       SignUp.initial)) = None /\
  snd (SignUp.handleSignUp Host.browser None unreachable SignUp.initial) =
    [Web.PreventDefault;
     Web.Toast Web.toast_error "Please fix the errors marked below." None;
     Web.Focus "name"].
Proof. split; reflexivity. Qed.

(** ** Objects *)

Section ObjFacts.
Context {K V : Type} (eqb : K -> K -> bool).
Hypothesis eqb_spec : forall a b, eqb a b = true <-> a = b.

Lemma eqb_same (a : K) : eqb a a = true.
Proof. now apply eqb_spec. Qed.

Lemma eqb_other (a b : K) : a <> b -> eqb a b = false.
Proof.
  intros H. destruct (eqb a b) eqn:E; [|reflexivity].
  now apply eqb_spec in E.
Qed.

Lemma get_delete_same (k : K) (o : list (K * V)) :
  Obj.get eqb k (Obj.delete eqb k o) = None.
Proof.
  induction o as [|[k' v] o IH]; simpl; [reflexivity|].
  destruct (eqb k' k) eqn:E; [exact IH|]. simpl. now rewrite E.
Qed.

Lemma get_delete_other (k g : K) (o : list (K * V)) :
  k <> g -> Obj.get eqb k (Obj.delete eqb g o) = Obj.get eqb k o.
Proof.
  intros H. induction o as [|[k' v] o IH]; simpl; [reflexivity|].
  destruct (eqb k' g) eqn:E.
  - apply eqb_spec in E; subst k'. rewrite IH.
    now rewrite (eqb_other g k) by congruence.
  - simpl. now rewrite IH.
Qed.

Lemma get_delete_some (k g : K) (o : list (K * V)) (v : V) :
  Obj.get eqb k (Obj.delete eqb g o) = Some v ->
  k <> g /\ Obj.get eqb k o = Some v.
Proof.
  intros H. assert (k <> g) as Hn.
  { intros ->. now rewrite get_delete_same in H. }
  split; [exact Hn|]. now rewrite get_delete_other in H.
Qed.

Lemma get_set_same (k : K) (v : V) (o : list (K * V)) :
  Obj.get eqb k (Obj.set eqb k v o) = Some v.
Proof.
  induction o as [|[k' v'] o IH]; simpl.
  - now rewrite eqb_same.
  - destruct (eqb k' k) eqn:E; simpl; now rewrite E.
Qed.

Lemma get_set_other (k g : K) (v : V) (o : list (K * V)) :
  k <> g -> Obj.get eqb k (Obj.set eqb g v o) = Obj.get eqb k o.
Proof.
  intros H. induction o as [|[k' v'] o IH]; simpl.
  - now rewrite (eqb_other g k) by congruence.
  - destruct (eqb k' g) eqn:E; simpl.
    + apply eqb_spec in E; subst k'.
      now rewrite (eqb_other g k) by congruence.
    + now rewrite IH.
Qed.

End ObjFacts.

Lemma Key_eqb_spec (a b : SignUp.Key.t) : SignUp.Key.eqb a b = true <-> a = b.
Proof. destruct a, b; simpl; split; intros H; congruence. Qed.

(** ** The signup validator *)

Lemma length_below_one (s : string) : (String.length s <? 1)%nat = (s =? "").
Proof. destruct s; reflexivity. Qed.

Ltac signUpSchema_cases h n e m p c :=
  cbv [SignUp.signUpSchema SignUp.parse_object SignUp.shape Zod.run_checks
       SignUp.read SignUp.write SignUp.name SignUp.email SignUp.mobileNumber
       SignUp.password SignUp.confirmPassword];
  destruct (String.length (JS.trim n) <? 1)%nat,
           (String.length (JS.trim e) <? 1)%nat,
           (Host.email_shape h (JS.trim e)),
           (String.length (JS.trim m) <? 8)%nat,
           (SignUp.mobile_pattern (JS.trim m)),
           (String.length p <? 6)%nat,
           (String.length c <? 1)%nat,
           (p =? c).

(** The error map of a parse holds under each key the messages raised
    under it, and no key without a message. *)
Lemma get_fieldErrors (h : Host.t) (d : SignUp.SignUpFormData) (k : SignUp.Key.t) :
  Obj.get SignUp.Key.eqb k
    (Zod.fieldErrors SignUp.Key.eqb (snd (SignUp.signUpSchema h d))) =
  match violations h d k with
  | [] => None
  | l => Some l
  end.
Proof.
  destruct d as [n e m p c]. unfold violations.
  signUpSchema_cases h n e m p c; destruct k; reflexivity.
Qed.

Lemma signUpSchema_no_issue (h : Host.t) (d : SignUp.SignUpFormData) :
  snd (SignUp.signUpSchema h d) = [] <-> forall k, violations h d k = [].
Proof.
  destruct d as [n e m p c]. unfold violations.
  signUpSchema_cases h n e m p c;
    (split;
     [ intros H; try discriminate H; intros k; destruct k; reflexivity
     | intros H; try reflexivity;
       first [ discriminate (H SignUp.Key.name)
             | discriminate (H SignUp.Key.email)
             | discriminate (H SignUp.Key.mobileNumber)
             | discriminate (H SignUp.Key.password)
             | discriminate (H SignUp.Key.confirmPassword) ] ]).
Qed.

(** The output of the schema: name, email and mobile number trimmed, the
    two passwords as they were typed. *)
Lemma signUpSchema_output (h : Host.t) (d : SignUp.SignUpFormData) :
  fst (SignUp.signUpSchema h d) =
  {| SignUp.name := JS.trim (SignUp.name d);
     SignUp.email := JS.trim (SignUp.email d);
     SignUp.mobileNumber := JS.trim (SignUp.mobileNumber d);
     SignUp.password := SignUp.password d;
     SignUp.confirmPassword := SignUp.confirmPassword d |}.
Proof.
  destruct d as [n e m p c].
  cbv [SignUp.signUpSchema SignUp.parse_object SignUp.shape Zod.run_checks
       SignUp.read SignUp.write SignUp.name SignUp.email SignUp.mobileNumber
       SignUp.password SignUp.confirmPassword].
  repeat match goal with |- context [if ?b then _ else _] => destruct b end;
    reflexivity.
Qed.

Lemma safeParse_success {D K : Type} (r : D * list (Zod.issue K)) (data : D) :
  Zod.safeParse r = Zod.Success data <-> snd r = [] /\ fst r = data.
Proof.
  unfold Zod.safeParse. destruct (snd r); split.
  - intros H; injection H as <-; auto.
  - intros [_ <-]; reflexivity.
  - discriminate.
  - intros [H _]; discriminate.
Qed.

Lemma safeParse_failure {D K : Type} (r : D * list (Zod.issue K)) issues :
  Zod.safeParse r = Zod.Failure issues -> snd r = issues /\ issues <> [].
Proof.
  unfold Zod.safeParse. destruct (snd r); [discriminate|].
  intros H; injection H as <-. split; [reflexivity|discriminate].
Qed.



(** The state in which [handleSignUp] leaves the error map. *)
Lemma handleSignUp_start_formErrors (h : Host.t) (base : option string)
    (st : SignUp.state) :
  SignUp.formErrors (fst (fst (SignUp.handleSignUp_start h base st))) =
  Zod.fieldErrors SignUp.Key.eqb (snd (SignUp.signUpSchema h (SignUp.formData st))).
Proof.
  unfold SignUp.handleSignUp_start.
  destruct (Zod.safeParse _) as [data|issues] eqn:Hp.
  - apply safeParse_success in Hp as [-> _].
    destruct (negb _); reflexivity.
  - apply safeParse_failure in Hp as [-> _]. reflexivity.
Qed.

Lemma handleSignUp_start_formData (h : Host.t) (base : option string)
    (st : SignUp.state) :
  SignUp.formData (fst (fst (SignUp.handleSignUp_start h base st))) =
  SignUp.formData st.
Proof.
  unfold SignUp.handleSignUp_start.
  destruct (Zod.safeParse _); [destruct (negb _)|]; reflexivity.
Qed.

(** ** The pattern of the mobile number *)










(** ** The body of the signup request *)

Lemma remove_spaces_trimStart (s : string) :
  JS.remove_spaces (JS.trimStart s) = JS.remove_spaces s.
Proof.
  unfold JS.remove_spaces.
  induction s as [|c s IH]; simpl; [reflexivity|].
  destruct (JS.is_space c) eqn:E; simpl; [exact IH|now rewrite E].
Qed.

Lemma remove_spaces_trimEnd (s : string) :
  JS.remove_spaces (JS.trimEnd s) = JS.remove_spaces s.
Proof.
  unfold JS.remove_spaces.
  induction s as [|c s IH]; simpl; [reflexivity|].
  destruct (JS.trimEnd s) as [|a r] eqn:E.
  - simpl in IH. rewrite <- IH.
    destruct (JS.is_space c) eqn:E'; simpl; [reflexivity|now rewrite E'].
  - change (JS.filter_chars (fun c0 => negb (JS.is_space c0)) (String c (String a r)))
      with (if negb (JS.is_space c)
            then String c (JS.filter_chars (fun c0 => negb (JS.is_space c0)) (String a r))
            else JS.filter_chars (fun c0 => negb (JS.is_space c0)) (String a r)).
    now rewrite IH.
Qed.

Lemma remove_spaces_trim (s : string) :
  JS.remove_spaces (JS.trim s) = JS.remove_spaces s.
Proof.
  unfold JS.trim. now rewrite remove_spaces_trimEnd, remove_spaces_trimStart.
Qed.

(** C4, as the code has it: the body of the signup request is the JSON
    of name, email, mobileNumber and password of the validated record, in
    this order and with no confirmPassword, where the mobile number is
    sent with every white space character removed. *)
Theorem signup_body_of_validated_record :
  forall (h : Host.t) (base : string) (o : Web.outcome) (st : SignUp.state)
         (data : SignUp.SignUpFormData),
    base <> "" ->
    Zod.safeParse (SignUp.signUpSchema h (SignUp.formData st)) = Zod.Success data ->
    map Web.body
      (Web.requests (snd (SignUp.handleSignUp h (Some base) o st))) =
    [ Some (JS.JObj
        [ ("name", JS.JStr (SignUp.name data));
          ("email", JS.JStr (SignUp.email data));
          ("mobileNumber", JS.JStr (JS.remove_spaces (SignUp.mobileNumber data)));
          ("password", JS.JStr (SignUp.password data)) ]) ].
Proof.
  intros h base o st data Hbase Hok. apply String.eqb_neq in Hbase.
  rewrite handleSignUp_requests.
  unfold SignUp.handleSignUp_start, SignUp.isApiConfigured, JS.unset.
  rewrite Hok, Hbase. simpl. now rewrite remove_spaces_trim.
Qed.

Lemma signup_body_of_validated_record_witness :
  "https://api.example.com" <> "" /\
  Zod.safeParse (SignUp.signUpSchema Host.browser
                   (SignUp.formData registration_filled)) =
    Zod.Success registration /\
  map Web.body
    (Web.requests (snd (SignUp.handleSignUp Host.browser api
                          (Web.Resolved created) registration_filled))) =
  [ Some (JS.JObj
      [ ("name", JS.JStr "Ann Lee");
        ("email", JS.JStr "ann@example.com");
        ("mobileNumber", JS.JStr "+15550109999");
        ("password", JS.JStr "secret1") ]) ].
Proof.
  split; [discriminate|]. split; [reflexivity|].
  refine (signup_body_of_validated_record Host.browser
            "https://api.example.com" (Web.Resolved created)
            registration_filled registration _ eq_refl).
  discriminate.
Defined.

(** C4 as stated fails on a mobile number written with spaces: the
    validated record holds it as typed, the body holds it without its
    spaces, so the body is not the validated record's four fields. *)
Lemma signup_body_rewrites_mobile_number :
  Zod.safeParse (SignUp.signUpSchema Host.browser
                   (SignUp.formData registration_filled)) =
    Zod.Success registration /\
  map Web.body
    (Web.requests (snd (SignUp.handleSignUp Host.browser api
                          (Web.Resolved created) registration_filled))) <>
  [ Some (JS.JObj
      [ ("name", JS.JStr (SignUp.name registration));
        ("email", JS.JStr (SignUp.email registration));
        ("mobileNumber", JS.JStr (SignUp.mobileNumber registration));
        ("password", JS.JStr (SignUp.password registration)) ]) ].
Proof. split; [reflexivity|]. discriminate. Qed.

(** ** Edits of the signup form *)

(** The test of [handleChange] that the message shown for the
    confirmation is the mismatch of the two passwords. *)
Lemma handleChange_formErrors (field : SignUp.Key.t) (value : string)
    (st : SignUp.state) :
  SignUp.formErrors (SignUp.handleChange field value st) =
  let o := SignUp.formErrors st in
  let o1 :=
    if SignUp.present (Obj.get SignUp.Key.eqb field o)
    then Obj.delete SignUp.Key.eqb field o else o in
  if (SignUp.Key.eqb field SignUp.Key.password ||
      SignUp.Key.eqb field SignUp.Key.confirmPassword) &&
     match Obj.get SignUp.Key.eqb SignUp.Key.confirmPassword o with
     | Some (m :: _) => m =? SignUp.mismatch
     | _ => false
     end
  then Obj.delete SignUp.Key.eqb SignUp.Key.confirmPassword o1 else o1.
Proof.
  unfold SignUp.handleChange.
  destruct (SignUp.error st) as [e|]; [destruct (e =? "")|];
    destruct (SignUp.present _); destruct (_ && _); reflexivity.
Qed.

Lemma handleChange_formData (field : SignUp.Key.t) (value : string)
    (st : SignUp.state) :
  SignUp.formData (SignUp.handleChange field value st) =
  SignUp.write field value (SignUp.formData st).
Proof.
  unfold SignUp.handleChange.
  destruct (SignUp.error st) as [e|]; [destruct (e =? "")|];
    destruct (SignUp.present _); destruct (_ && _); reflexivity.
Qed.

(** An edit of a field leaves no entry for it in the error map. *)
Lemma handleChange_clears (field : SignUp.Key.t) (value : string)
    (st : SignUp.state) :
  Obj.get SignUp.Key.eqb field
    (SignUp.formErrors (SignUp.handleChange field value st)) = None.
Proof.
  rewrite handleChange_formErrors. cbv zeta.
  assert (H1 : Obj.get SignUp.Key.eqb field
                 (if SignUp.present (Obj.get SignUp.Key.eqb field (SignUp.formErrors st))
                  then Obj.delete SignUp.Key.eqb field (SignUp.formErrors st)
                  else SignUp.formErrors st) = None).
  { destruct (Obj.get SignUp.Key.eqb field (SignUp.formErrors st)) eqn:E; simpl.
    - apply get_delete_same.
    - exact E. }
  destruct (_ && _); [|exact H1].
  destruct (SignUp.Key.eqb field SignUp.Key.confirmPassword) eqn:E.
  - apply Key_eqb_spec in E; subst field.
    apply get_delete_same.
  - rewrite (get_delete_other _ Key_eqb_spec); [exact H1|].
    intros ->. discriminate E.
Qed.

(** An entry that an edit of [field] leaves under [k] was there before
    it, [k] is another field, and it is not a confirmation whose first
    message was the mismatch when a password field was edited. *)
Lemma handleChange_keeps (field k : SignUp.Key.t) (value : string)
    (st : SignUp.state) (msgs : list string) :
  Obj.get SignUp.Key.eqb k
    (SignUp.formErrors (SignUp.handleChange field value st)) = Some msgs ->
  k <> field /\
  Obj.get SignUp.Key.eqb k (SignUp.formErrors st) = Some msgs /\
  (k = SignUp.Key.confirmPassword -> field = SignUp.Key.password ->
   hd_error msgs <> Some SignUp.mismatch).
Proof.
  intros H.
  assert (Hk : k <> field).
  { intros ->. now rewrite handleChange_clears in H. }
  rewrite handleChange_formErrors in H. cbv zeta in H.
  destruct (_ && _) eqn:Hc.
  - apply (get_delete_some _ Key_eqb_spec) in H as [Hcp H].
    assert (H' : Obj.get SignUp.Key.eqb k (SignUp.formErrors st) = Some msgs).
    { destruct (SignUp.present _); [|exact H].
      now rewrite (get_delete_other _ Key_eqb_spec) in H. }
    repeat split; [exact Hk|exact H'|]. intros ->. now elim Hcp.
  - assert (H' : Obj.get SignUp.Key.eqb k (SignUp.formErrors st) = Some msgs).
    { destruct (SignUp.present _); [|exact H].
      now rewrite (get_delete_other _ Key_eqb_spec) in H. }
    repeat split; [exact Hk|exact H'|]. intros -> -> Hm.
    rewrite H' in Hc. destruct msgs as [|m l]; [discriminate|].
    simpl in Hm, Hc. injection Hm as ->.
    now rewrite String.eqb_refl in Hc.
Qed.

(** C8, as the code has it: a registration whose confirmation differs
    from its password is not submitted: no request is sent, and the
    error map has an entry for confirmPassword that holds the mismatch
    message.  A change of the confirmPassword field then removes the
    entry.  A change of the password field removes it when the
    confirmation was not empty, which is when the mismatch is the message
    shown. *)
Theorem mismatch_blocks_submission :
  forall (h : Host.t) (API_BASE_URL : option string) (st : SignUp.state),
    SignUp.confirmPassword (SignUp.formData st) <>
      SignUp.password (SignUp.formData st) ->
    let blocked := fst (fst (SignUp.handleSignUp_start h API_BASE_URL st)) in
    snd (SignUp.handleSignUp_start h API_BASE_URL st) = false /\
    (forall o, Web.requests (snd (SignUp.handleSignUp h API_BASE_URL o st)) = []) /\
    (exists msgs,
        Obj.get SignUp.Key.eqb SignUp.Key.confirmPassword
          (SignUp.formErrors blocked) = Some msgs /\
        In "Passwords do not match" msgs) /\
    SignUp.getErrorMessage blocked SignUp.Key.confirmPassword <> None /\
    (forall value,
        Obj.get SignUp.Key.eqb SignUp.Key.confirmPassword
          (SignUp.formErrors
             (SignUp.handleChange SignUp.Key.confirmPassword value blocked)) =
        None) /\
    (SignUp.confirmPassword (SignUp.formData st) <> "" ->
     SignUp.getErrorMessage blocked SignUp.Key.confirmPassword =
       Some "Passwords do not match" /\
     forall value,
       Obj.get SignUp.Key.eqb SignUp.Key.confirmPassword
         (SignUp.formErrors
            (SignUp.handleChange SignUp.Key.password value blocked)) =
       None).
Proof.
  intros h base st Hneq blocked.
  assert (Hpc : (SignUp.password (SignUp.formData st) =?
                 SignUp.confirmPassword (SignUp.formData st)) = false).
  { apply String.eqb_neq. congruence. }
  assert (Hv : violations h (SignUp.formData st) SignUp.Key.confirmPassword =
               ((if (SignUp.confirmPassword (SignUp.formData st) =? "")
                 then ["Please confirm your password."] else []) ++
                [SignUp.mismatch])%list).
  { unfold violations. now rewrite Hpc, length_below_one. }
  assert (Hget : Obj.get SignUp.Key.eqb SignUp.Key.confirmPassword
                   (SignUp.formErrors blocked) =
                 Some ((if (SignUp.confirmPassword (SignUp.formData st) =? "")
                        then ["Please confirm your password."] else []) ++
                       [SignUp.mismatch])%list).
  { subst blocked. rewrite handleSignUp_start_formErrors, get_fieldErrors, Hv.
    destruct (_ =? ""); reflexivity. }
  assert (Hfail : exists issues,
             Zod.safeParse (SignUp.signUpSchema h (SignUp.formData st)) =
             Zod.Failure issues).
  { destruct (Zod.safeParse _) as [data|issues] eqn:Hp; [|now exists issues].
    apply safeParse_success in Hp as [Hp _].
    pose proof (proj1 (signUpSchema_no_issue h _) Hp SignUp.Key.confirmPassword) as H0.
    rewrite Hv in H0. destruct (_ =? ""); discriminate. }
  destruct Hfail as [issues Hfail].
  repeat apply conj.
  - unfold SignUp.handleSignUp_start. now rewrite Hfail.
  - intros o. rewrite handleSignUp_requests.
    now apply handleSignUp_start_requests_invalid with (issues := issues).
  - eexists. split; [exact Hget|]. apply in_or_app. right. now left.
  - unfold SignUp.getErrorMessage. rewrite Hget.
    destruct (_ =? ""); discriminate.
  - intros value. apply handleChange_clears.
  - intros H. apply String.eqb_neq in H. rewrite H in Hget. split.
    + unfold SignUp.getErrorMessage. now rewrite Hget.
    + intros value. rewrite handleChange_formErrors. cbv zeta. rewrite Hget.
      simpl. apply get_delete_same.
Qed.

Lemma mismatch_blocks_submission_witness :
  (SignUp.confirmPassword (SignUp.formData mistyped) <>
     SignUp.password (SignUp.formData mistyped) /\
   SignUp.confirmPassword (SignUp.formData mistyped) <> "") /\
  Web.requests (snd (SignUp.handleSignUp Host.browser api unreachable mistyped)) = [] /\
  SignUp.getErrorMessage
    (fst (fst (SignUp.handleSignUp_start Host.browser api mistyped)))
    SignUp.Key.confirmPassword = Some "Passwords do not match" /\
  Obj.get SignUp.Key.eqb SignUp.Key.confirmPassword
    (SignUp.formErrors
       (SignUp.handleChange SignUp.Key.password "secret2"
          (fst (fst (SignUp.handleSignUp_start Host.browser api mistyped))))) =
  None.
Proof.
  split; [split; discriminate|].
  assert (Hneq : SignUp.confirmPassword (SignUp.formData mistyped) <>
                 SignUp.password (SignUp.formData mistyped)) by discriminate.
  destruct (mismatch_blocks_submission Host.browser api mistyped Hneq)
    as [_ [H2 [_ [_ [_ H6]]]]].
  split; [exact (H2 unreachable)|].
  assert (Hne : SignUp.confirmPassword (SignUp.formData mistyped) <> "")
    by discriminate.
  destruct (H6 Hne) as [H7 H8].
  split; [exact H7|exact (H8 "secret2")].
Defined.

(** C8 as stated fails when the confirmation is empty: the submission is
    blocked with an entry for confirmPassword that holds the mismatch
    message behind the one that asks for the confirmation, and a change
    of the password field leaves the entry as it is. *)
Lemma password_edit_keeps_unconfirmed_entry :
  SignUp.confirmPassword (SignUp.formData unconfirmed) <>
    SignUp.password (SignUp.formData unconfirmed) /\
  Obj.get SignUp.Key.eqb SignUp.Key.confirmPassword
    (SignUp.formErrors
       (SignUp.handleChange SignUp.Key.password "secret2"
          (fst (fst (SignUp.handleSignUp_start Host.browser api unconfirmed))))) =
  Some ["Please confirm your password."; "Passwords do not match"].
Proof. split; [discriminate|reflexivity]. Qed.

(** ** The error map along a run of the signup page *)

Lemma violations_write (h : Host.t) (d : SignUp.SignUpFormData)
    (k field : SignUp.Key.t) (value : string) :
  k <> field -> k <> SignUp.Key.confirmPassword ->
  violations h (SignUp.write field value d) k = violations h d k.
Proof. destruct k, field; intros H1 H2; try congruence; reflexivity. Qed.

Lemma handleSignUp_catch_state (m : string) (st : SignUp.state) :
  SignUp.formData (fst (SignUp.handleSignUp_catch m st)) = SignUp.formData st /\
  (SignUp.formErrors (fst (SignUp.handleSignUp_catch m st)) = SignUp.formErrors st \/
   SignUp.formErrors (fst (SignUp.handleSignUp_catch m st)) =
   Obj.set SignUp.Key.eqb SignUp.Key.email SignUp.already_registered
     (SignUp.formErrors st)).
Proof.
  unfold SignUp.handleSignUp_catch.
  destruct (JS.includes _ _ || JS.includes _ _); simpl; auto.
Qed.

Lemma handleSignUp_resume_state (h : Host.t) (o : Web.outcome)
    (st : SignUp.state) :
  SignUp.formData (fst (SignUp.handleSignUp_resume h o st)) = SignUp.formData st /\
  (SignUp.formErrors (fst (SignUp.handleSignUp_resume h o st)) = SignUp.formErrors st \/
   SignUp.formErrors (fst (SignUp.handleSignUp_resume h o st)) =
   Obj.set SignUp.Key.eqb SignUp.Key.email SignUp.already_registered
     (SignUp.formErrors st)).
Proof.
  unfold SignUp.handleSignUp_resume. destruct o as [m|res].
  - apply handleSignUp_catch_state.
  - destruct (negb (Web.ok res)); [|simpl; auto].
    destruct (JS.get _ _); [destruct (JS.ToString _)|];
      apply handleSignUp_catch_state.
Qed.

Lemma handleChange_entries_ok (h : Host.t) (field : SignUp.Key.t)
    (value : string) (st : SignUp.state) :
  entries_ok h st -> entries_ok h (SignUp.handleChange field value st).
Proof.
  intros Hinv k msgs H. rewrite handleChange_formData.
  apply handleChange_keeps in H as (Hk & H & Hm).
  specialize (Hinv k msgs H).
  destruct k; unfold entry_ok in *;
    try (rewrite violations_write by (auto; discriminate); exact Hinv).
  destruct Hinv as [He|[Hh Hp]].
  - left. destruct field; try exact He. now elim Hk.
  - destruct field; try (right; split; [exact Hh|exact Hp]).
    + now elim (Hm eq_refl eq_refl).
    + now elim Hk.
Qed.

Lemma handleSignUp_start_entries_ok (h : Host.t) (base : option string)
    (st : SignUp.state) :
  entries_ok h (fst (fst (SignUp.handleSignUp_start h base st))).
Proof.
  intros k msgs.
  rewrite handleSignUp_start_formErrors, handleSignUp_start_formData,
    get_fieldErrors.
  intros H.
  assert (Hv : violations h (SignUp.formData st) k = msgs /\ msgs <> []).
  { destruct (violations h (SignUp.formData st) k); [discriminate|].
    injection H as <-. split; [reflexivity|discriminate]. }
  destruct Hv as [Hv Hne].
  destruct k; unfold entry_ok; try (rewrite Hv; exact Hne).
  - right. rewrite Hv; exact Hne.
  - unfold violations in Hv. rewrite length_below_one in Hv.
    destruct (SignUp.confirmPassword (SignUp.formData st) =? "") eqn:E.
    + left. now apply String.eqb_eq.
    + right.
      destruct (SignUp.password (SignUp.formData st) =?
                SignUp.confirmPassword (SignUp.formData st)) eqn:E'.
      * simpl in Hv. now elim Hne.
      * simpl in Hv. subst msgs. split; [reflexivity|].
        now apply String.eqb_neq.
Qed.

Lemma handleSignUp_resume_entries_ok (h : Host.t) (o : Web.outcome)
    (st : SignUp.state) :
  entries_ok h st -> entries_ok h (fst (SignUp.handleSignUp_resume h o st)).
Proof.
  intros Hinv k msgs.
  destruct (handleSignUp_resume_state h o st) as [-> [->| ->]].
  - apply Hinv.
  - destruct k;
      try (rewrite (get_set_other _ Key_eqb_spec) by discriminate; apply Hinv).
    rewrite (get_set_same _ Key_eqb_spec). intros H; injection H as <-.
    now left.
Qed.

Lemma step_entries_ok (h : Host.t) (base : option string) (e : SignUp.event)
    (st : SignUp.state) :
  entries_ok h st -> entries_ok h (SignUp.step h base e st).
Proof.
  intros Hinv. destruct e as [field value| | |o]; simpl.
  - now apply handleChange_entries_ok.
  - exact Hinv.
  - apply handleSignUp_start_entries_ok.
  - now apply handleSignUp_resume_entries_ok.
Qed.

Lemma run_entries_ok (h : Host.t) (base : option string)
    (es : list SignUp.event) :
  forall st, entries_ok h st -> entries_ok h (SignUp.run h base es st).
Proof.
  induction es as [|e es IH]; intros st Hinv; simpl.
  - exact Hinv.
  - apply IH. now apply step_entries_ok.
Qed.

Lemma entry_ok_invalid (h : Host.t) (d : SignUp.SignUpFormData)
    (k : SignUp.Key.t) (msgs : list string) :
  entry_ok h d k msgs ->
  invalid h d k \/ (k = SignUp.Key.email /\ msgs = SignUp.already_registered).
Proof.
  unfold invalid. rewrite get_fieldErrors.
  assert (Hn : violations h d k <> [] ->
               match violations h d k with [] => None | l => Some l end <> None).
  { destruct (violations h d k); [congruence|discriminate]. }
  destruct k; unfold entry_ok; try (intros H; left; exact (Hn H)).
  - intros [H|H]; [right; split; [reflexivity|exact H]|left; exact (Hn H)].
  - intros H. left. apply Hn. unfold violations.
    destruct H as [He|[_ Hp]].
    + rewrite He. simpl. destruct (_ =? _); discriminate.
    + apply String.eqb_neq in Hp. rewrite Hp.
      destruct (_ <? _)%nat; discriminate.
Qed.

(** C9, as the code has it: along every run of the signup page (field
    edits, submissions and their outcomes, in any order) a field has an
    entry in the error map only while its current value is one that the
    validator rejects, or, for the email, while the entry is the notice
    that the server reported the email as already registered; and an edit
    of a field leaves no entry for that field. *)
Theorem error_map_follows_values :
  forall (h : Host.t) (API_BASE_URL : option string) (events : list SignUp.event),
    let st := SignUp.run h API_BASE_URL events SignUp.initial in
    (forall k msgs,
        Obj.get SignUp.Key.eqb k (SignUp.formErrors st) = Some msgs ->
        invalid h (SignUp.formData st) k \/
        (k = SignUp.Key.email /\ msgs = ["This email is already registered."])) /\
    (forall field value,
        Obj.get SignUp.Key.eqb field
          (SignUp.formErrors (SignUp.handleChange field value st)) = None).
Proof.
  intros h base events st. split.
  - intros k msgs H. apply entry_ok_invalid.
    revert k msgs H. apply run_entries_ok.
    intros k msgs H. discriminate H.
  - intros field value. apply handleChange_clears.
Qed.

Lemma error_map_follows_values_witness :
  Obj.get SignUp.Key.eqb SignUp.Key.email
    (SignUp.formErrors
       (SignUp.run Host.browser api rejected_registration SignUp.initial)) =
    Some ["This email is already registered."] /\
  (invalid Host.browser
     (SignUp.formData
        (SignUp.run Host.browser api rejected_registration SignUp.initial))
     SignUp.Key.email \/
   (SignUp.Key.email = SignUp.Key.email /\
    ["This email is already registered."] = ["This email is already registered."])).
Proof.
  split; [reflexivity|].
  exact (proj1 (error_map_follows_values Host.browser api rejected_registration)
           SignUp.Key.email ["This email is already registered."] eq_refl).
Defined.

(** C9 as stated fails after a rejected registration: the error map has
    an entry for the email although the validator accepts the email that
    the form holds. *)
Lemma registered_email_entry_on_valid_value :
  Obj.get SignUp.Key.eqb SignUp.Key.email
    (SignUp.formErrors
       (SignUp.run Host.browser api rejected_registration SignUp.initial)) =
    Some ["This email is already registered."] /\
  ~ invalid Host.browser
      (SignUp.formData
         (SignUp.run Host.browser api rejected_registration SignUp.initial))
      SignUp.Key.email.
Proof. split; [reflexivity|]. intros H. now apply H. Qed.

(** * Further properties of the handlers *)

(** ** Outcomes of a signup request *)

Lemma handleSignUp_sent (h : Host.t) (base : option string) (o : Web.outcome)
    (st : SignUp.state) (data : SignUp.SignUpFormData) :
  JS.unset base = false ->
  Zod.safeParse (SignUp.signUpSchema h (SignUp.formData st)) = Zod.Success data ->
  let st1 :=
    SignUp.setLoading true
      (SignUp.setFormErrors (fun _ => []) (SignUp.setError None st)) in
  SignUp.handleSignUp h base o st =
  (fst (SignUp.handleSignUp_resume h o st1),
   ([Web.PreventDefault;
     Web.Toast Web.toast_loading "Creating your account..." None;
     Web.Fetch (SignUp.signup_request base data)] ++
    snd (SignUp.handleSignUp_resume h o st1))%list).
Proof.
  intros Hb Hp st1.
  unfold SignUp.handleSignUp, SignUp.handleSignUp_start, SignUp.isApiConfigured.
  rewrite Hp, Hb. simpl. fold st1.
  now destruct (SignUp.handleSignUp_resume h o st1).
Qed.

Lemma handleSignUp_catch_result (m : string) (st : SignUp.state) :
  let e := if m =? "" then "An unexpected error occurred" else m in
  SignUp.error (fst (SignUp.handleSignUp_catch m st)) = Some e /\
  e <> "" /\
  SignUp.loading (fst (SignUp.handleSignUp_catch m st)) = false /\
  SignUp.success (fst (SignUp.handleSignUp_catch m st)) = SignUp.success st /\
  SignUp.formData (fst (SignUp.handleSignUp_catch m st)) = SignUp.formData st /\
  SignUp.formErrors (fst (SignUp.handleSignUp_catch m st)) =
    (if SignUp.mentions_registered e
     then Obj.set SignUp.Key.eqb SignUp.Key.email SignUp.already_registered
            (SignUp.formErrors st)
     else SignUp.formErrors st) /\
  In (Web.Toast Web.toast_error "Signup Failed" (Some (JS.JStr e)))
     (snd (SignUp.handleSignUp_catch m st)) /\
  (In (Web.Focus "email") (snd (SignUp.handleSignUp_catch m st)) <->
   SignUp.mentions_registered e = true).
Proof.
  intros e. unfold SignUp.handleSignUp_catch, SignUp.mentions_registered.
  fold e.
  assert (He : e <> "").
  { subst e. destruct (m =? "") eqn:E; [discriminate|].
    now apply String.eqb_neq. }
  destruct (JS.includes (JS.toLowerCase e) "already registered" ||
            JS.includes (JS.toLowerCase e) "email_1"); simpl.
  - repeat split; auto.
  - repeat split; auto; try discriminate.
    intros [H|[H|[]]]; discriminate.
Qed.

Lemma handleSignUp_resume_failed (h : Host.t) (o : Web.outcome)
    (st : SignUp.state) :
  failed_outcome o = true ->
  SignUp.handleSignUp_resume h o st =
  SignUp.handleSignUp_catch (signup_failure_message h o) st.
Proof.
  destruct o as [m|res]; simpl; [reflexivity|]. intros ->.
  destruct (Web.json res) as [[| | | | |ms]|]; try reflexivity.
  simpl. destruct (JS.ToString _); reflexivity.
Qed.

(** X1: a validated registration that the server accepts (any [ok]
    status, whatever the body) ends on the success screen, which names
    the email as it stands in the form; no error is left, the error map
    is empty and the page is no longer loading. *)
Theorem signup_created_shows_address :
  forall (h : Host.t) (API_BASE_URL : option string) (res : Web.response)
         (st : SignUp.state) (data : SignUp.SignUpFormData),
    JS.unset API_BASE_URL = false ->
    Zod.safeParse (SignUp.signUpSchema h (SignUp.formData st)) = Zod.Success data ->
    Web.ok res = true ->
    let r := SignUp.handleSignUp h API_BASE_URL (Web.Resolved res) st in
    SignUp.render API_BASE_URL (fst r) =
      SignUp.SuccessScreen (SignUp.email (SignUp.formData st)) /\
    SignUp.error (fst r) = None /\
    SignUp.formErrors (fst r) = [] /\
    SignUp.loading (fst r) = false /\
    snd r =
      [Web.PreventDefault;
       Web.Toast Web.toast_loading "Creating your account..." None;
       Web.Fetch (SignUp.signup_request API_BASE_URL data);
       Web.Toast Web.toast_success "Account Created!"
         (Some (JS.JStr "Please check your email to verify your account."))].
Proof.
  intros h base res st data Hb Hp Hok r. subst r.
  rewrite (handleSignUp_sent h base _ st data Hb Hp).
  unfold SignUp.handleSignUp_resume. rewrite Hok. simpl.
  repeat split; reflexivity.
Qed.

Lemma signup_created_shows_address_witness :
  JS.unset api = false /\
  Zod.safeParse (SignUp.signUpSchema Host.browser
                   (SignUp.formData registration_filled)) =
    Zod.Success registration /\
  Web.ok created = true /\
  SignUp.render api
    (fst (SignUp.handleSignUp Host.browser api (Web.Resolved created)
            registration_filled)) =
  SignUp.SuccessScreen "ann@example.com".
Proof.
  do 3 (split; [reflexivity|]).
  exact (proj1 (signup_created_shows_address Host.browser api created
                  registration_filled registration eq_refl eq_refl eq_refl)).
Defined.

(** X2: a validated registration whose request is rejected, or answered
    with a status that is not [ok], never reaches the success screen: the
    page stops loading and shows an error message that is not empty, in
    the banner and in the toast.  The error map is left empty but for the
    notice on the email, which is set, and the email focused, exactly
    when the message mentions [already registered] or [email_1] in any
    letter case. *)
Theorem signup_failure_is_shown :
  forall (h : Host.t) (API_BASE_URL : option string) (o : Web.outcome)
         (st : SignUp.state) (data : SignUp.SignUpFormData),
    JS.unset API_BASE_URL = false ->
    Zod.safeParse (SignUp.signUpSchema h (SignUp.formData st)) = Zod.Success data ->
    failed_outcome o = true ->
    let r := SignUp.handleSignUp h API_BASE_URL o st in
    exists e,
      SignUp.error (fst r) = Some e /\
      e <> "" /\
      SignUp.loading (fst r) = false /\
      SignUp.success (fst r) = SignUp.success st /\
      SignUp.formErrors (fst r) =
        (if SignUp.mentions_registered e
         then [(SignUp.Key.email, ["This email is already registered."])]
         else []) /\
      In (Web.Toast Web.toast_error "Signup Failed" (Some (JS.JStr e))) (snd r) /\
      (In (Web.Focus "email") (snd r) <-> SignUp.mentions_registered e = true).
Proof.
  intros h base o st data Hb Hp Hf r. subst r.
  rewrite (handleSignUp_sent h base o st data Hb Hp).
  rewrite (handleSignUp_resume_failed h o _ Hf).
  set (st1 := SignUp.setLoading true _).
  destruct (handleSignUp_catch_result (signup_failure_message h o) st1)
    as (H1 & H2 & H3 & H4 & _ & H6 & H7 & H8).
  eexists. repeat split; cbn [fst snd]; try eassumption.
  - apply in_or_app. right. exact H7.
  - intros H. apply H8. apply in_app_or in H as [H|H]; [|exact H].
    simpl in H. destruct H as [H|[H|[H|[]]]]; discriminate.
  - intros H. apply in_or_app. right. now apply H8.
Qed.

Lemma signup_failure_is_shown_witness :
  (JS.unset api = false /\
   Zod.safeParse (SignUp.signUpSchema Host.browser
                    (SignUp.formData registration_filled)) =
     Zod.Success registration /\
   failed_outcome (Web.Resolved email_taken) = true) /\
  exists e,
    SignUp.error
      (fst (SignUp.handleSignUp Host.browser api (Web.Resolved email_taken)
              registration_filled)) = Some e /\
    e <> "".
Proof.
  split; [repeat split|].
  destruct (signup_failure_is_shown Host.browser api (Web.Resolved email_taken)
              registration_filled registration eq_refl eq_refl eq_refl)
    as (e & H1 & H2 & _).
  exists e. split; [exact H1|exact H2].
Defined.

(** X3: the message that the signup page shows for a response that is
    not [ok].  When the body is no JSON document the message is [Could
    not parse server response], whatever the status.  When the body is an
    object whose [error] is a string that is not empty, the message is
    that string.  When the body is an object with no [error], the message
    is [Signup failed (status N)]. *)
Theorem signup_failure_message_of_body :
  forall (h : Host.t) (API_BASE_URL : option string) (res : Web.response)
         (st : SignUp.state) (data : SignUp.SignUpFormData),
    JS.unset API_BASE_URL = false ->
    Zod.safeParse (SignUp.signUpSchema h (SignUp.formData st)) = Zod.Success data ->
    Web.ok res = false ->
    let shown :=
      SignUp.error (fst (SignUp.handleSignUp h API_BASE_URL (Web.Resolved res) st)) in
    (Web.json res = None -> shown = Some "Could not parse server response") /\
    (forall ms e,
        Web.json res = Some (JS.JObj ms) ->
        JS.member "error" ms = Some (JS.JStr e) -> e <> "" ->
        shown = Some e) /\
    (forall ms,
        Web.json res = Some (JS.JObj ms) ->
        JS.member "error" ms = None ->
        shown = Some ("Signup failed (status " ++ JS.decimal (Web.status res) ++ ")")).
Proof.
  intros h base res st data Hb Hp Hok shown. subst shown.
  rewrite (handleSignUp_sent h base _ st data Hb Hp). cbn [fst].
  rewrite handleSignUp_resume_failed by (unfold failed_outcome; now rewrite Hok).
  set (st1 := SignUp.setLoading true _).
  pose proof (handleSignUp_catch_result
                (signup_failure_message h (Web.Resolved res)) st1) as [H _].
  rewrite H. clear H. simpl. repeat split.
  - intros ->. reflexivity.
  - intros ms e -> Hm He. rewrite Hm. apply String.eqb_neq in He.
    unfold JS.or_else, JS.truthy. rewrite He. simpl. now rewrite He.
  - intros ms -> Hm. rewrite Hm. reflexivity.
Qed.

Lemma signup_failure_message_of_body_witness :
  (JS.unset api = false /\
   Zod.safeParse (SignUp.signUpSchema Host.browser
                    (SignUp.formData registration_filled)) =
     Zod.Success registration /\
   Web.ok server_error_without_body = false /\
   Web.json server_error_without_body = None) /\
  SignUp.error
    (fst (SignUp.handleSignUp Host.browser api
            (Web.Resolved server_error_without_body) registration_filled)) =
  Some "Could not parse server response".
Proof.
  split; [repeat split|].
  exact (proj1 (signup_failure_message_of_body Host.browser api
                  server_error_without_body registration_filled registration
                  eq_refl eq_refl eq_refl) eq_refl).
Defined.

(** ** The validator on its own output, and what is sent *)

Lemma trimEnd_idem (s : string) : JS.trimEnd (JS.trimEnd s) = JS.trimEnd s.
Proof.
  induction s as [|c r IH]; simpl; [reflexivity|].
  destruct (JS.trimEnd r) as [|a r'] eqn:E.
  - destruct (JS.is_space c) eqn:Ec; simpl; [reflexivity|now rewrite Ec].
  - change (JS.trimEnd (String c (String a r')))
      with (match JS.trimEnd (String a r') with
            | EmptyString =>
                if JS.is_space c then EmptyString else String c EmptyString
            | String x y => String c (String x y)
            end).
    now rewrite IH.
Qed.

Lemma trimStart_starts_tight (s : string) : starts_tight (JS.trimStart s).
Proof.
  induction s as [|c r IH]; simpl; [exact I|].
  destruct (JS.is_space c) eqn:E; [exact IH|exact E].
Qed.

Lemma trimEnd_starts_tight (s : string) :
  starts_tight s -> starts_tight (JS.trimEnd s).
Proof.
  destruct s as [|c r]; simpl; [trivial|]. intros E.
  destruct (JS.trimEnd r); [rewrite E|]; exact E.
Qed.

Lemma trimStart_tight (s : string) : starts_tight s -> JS.trimStart s = s.
Proof. destruct s as [|c r]; simpl; [trivial|]. now intros ->. Qed.

Lemma trim_idem (s : string) : JS.trim (JS.trim s) = JS.trim s.
Proof.
  unfold JS.trim.
  rewrite (trimStart_tight (JS.trimEnd (JS.trimStart s))).
  - apply trimEnd_idem.
  - apply trimEnd_starts_tight, trimStart_starts_tight.
Qed.

(** X4: validation is idempotent.  The output of the schema differs from
    its input only by the white space around name, email and mobile
    number, and validating the output again returns the same output and
    raises the same issues. *)
Theorem signUpSchema_idempotent :
  forall (h : Host.t) (d : SignUp.SignUpFormData),
    SignUp.signUpSchema h (fst (SignUp.signUpSchema h d)) =
    SignUp.signUpSchema h d.
Proof.
  intros h d. rewrite signUpSchema_output. destruct d as [n e m p c].
  cbv [SignUp.signUpSchema SignUp.parse_object SignUp.shape Zod.run_checks
       SignUp.read SignUp.write SignUp.name SignUp.email SignUp.mobileNumber
       SignUp.password SignUp.confirmPassword].
  now rewrite !trim_idem.
Qed.

Lemma keys_fieldErrors (h : Host.t) (d : SignUp.SignUpFormData) :
  Obj.keys (Zod.fieldErrors SignUp.Key.eqb (snd (SignUp.signUpSchema h d))) =
  filter (SignUp.rejects h d) (map fst SignUp.shape).
Proof.
  destruct d as [n e m p c]. unfold SignUp.rejects.
  signUpSchema_cases h n e m p c; reflexivity.
Qed.

Lemma find_filter {A : Type} (p : A -> bool) (l : list A) :
  find p l = hd_error (filter p l).
Proof.
  induction l as [|a l IH]; simpl; [reflexivity|].
  destruct (p a); [reflexivity|exact IH].
Qed.

Lemma rejects_failure (h : Host.t) (d : SignUp.SignUpFormData) (k : SignUp.Key.t) :
  SignUp.rejects h d k = true ->
  exists issues,
    Zod.safeParse (SignUp.signUpSchema h d) = Zod.Failure issues /\
    issues = snd (SignUp.signUpSchema h d).
Proof.
  unfold SignUp.rejects, Zod.safeParse.
  destruct (snd (SignUp.signUpSchema h d)) as [|i l]; [discriminate|].
  intros _. now exists (i :: l).
Qed.

(** X5: a record with a value that the schema rejects is not sent,
    wherever the base URL points and whatever else the record holds.
    The submit attempt leaves the form data, the loading flag and the
    success flag as they were, clears the error banner, lists the
    rejected fields in the error map in the order of the schema, and
    moves the focus to the first of them. *)
Theorem rejected_record_is_not_sent :
  forall (h : Host.t) (API_BASE_URL : option string) (o : Web.outcome)
         (st : SignUp.state) (k : SignUp.Key.t),
    SignUp.rejects h (SignUp.formData st) k = true ->
    let r := SignUp.handleSignUp h API_BASE_URL o st in
    Web.requests (snd r) = [] /\
    SignUp.formData (fst r) = SignUp.formData st /\
    SignUp.loading (fst r) = SignUp.loading st /\
    SignUp.success (fst r) = SignUp.success st /\
    SignUp.error (fst r) = None /\
    Obj.keys (SignUp.formErrors (fst r)) =
      filter (SignUp.rejects h (SignUp.formData st)) (map fst SignUp.shape) /\
    exists first,
      find (SignUp.rejects h (SignUp.formData st)) (map fst SignUp.shape) =
        Some first /\
      snd r =
        [Web.PreventDefault;
         Web.Toast Web.toast_error "Please fix the errors marked below." None;
         Web.Focus (SignUp.Key.id first)].
Proof.
  intros h base o st k Hk r. subst r.
  destruct (rejects_failure h _ k Hk) as (issues & Hp & Hi).
  unfold SignUp.handleSignUp, SignUp.handleSignUp_start. rewrite Hp.
  cbn [fst snd SignUp.formErrors SignUp.setFormErrors SignUp.formData
       SignUp.loading SignUp.success SignUp.error SignUp.setError].
  subst issues. rewrite find_filter, <- keys_fieldErrors.
  repeat split.
  - destruct (Obj.keys _); reflexivity.
  - assert (Hne : Obj.keys (Zod.fieldErrors SignUp.Key.eqb
                     (snd (SignUp.signUpSchema h (SignUp.formData st)))) <> []).
    { rewrite keys_fieldErrors. intros E.
      assert (Hin : In k (filter (SignUp.rejects h (SignUp.formData st))
                            (map fst SignUp.shape))).
      { apply filter_In. split; [|exact Hk]. destruct k; simpl; auto 6. }
      rewrite E in Hin. exact Hin. }
    destruct (Obj.keys _) as [|k0 ks]; [now elim Hne|].
    exists k0. split; reflexivity.
Qed.

Lemma rejected_record_is_not_sent_witness :
  SignUp.rejects Host.browser (SignUp.formData mistyped)
    SignUp.Key.confirmPassword = true /\
  Web.requests
    (snd (SignUp.handleSignUp Host.browser api unreachable mistyped)) = [] /\
  Obj.keys
    (SignUp.formErrors
       (fst (SignUp.handleSignUp Host.browser api unreachable mistyped))) =
  [SignUp.Key.confirmPassword].
Proof.
  split; [reflexivity|].
  destruct (rejected_record_is_not_sent Host.browser api unreachable mistyped
              SignUp.Key.confirmPassword eq_refl) as (H1 & _ & _ & _ & _ & H6 & _).
  split; [exact H1|exact H6].
Defined.

Lemma remove_spaces_plain (r : string) :
  JS.forall_chars
    (fun c => JS.is_digit c || JS.is_space c || Ascii.eqb c "-") r = true ->
  JS.forall_chars (fun c => JS.is_digit c || Ascii.eqb c "-")
    (JS.remove_spaces r) = true.
Proof.
  unfold JS.remove_spaces. induction r as [|c r IH]; simpl; [reflexivity|].
  intros H. apply andb_true_iff in H as [Hc Hr].
  destruct (JS.is_space c) eqn:E; simpl; [now apply IH|].
  rewrite orb_false_r in Hc. now rewrite Hc, IH.
Qed.

Lemma plain_number_of_plain (s : string) :
  JS.forall_chars (fun c => JS.is_digit c || Ascii.eqb c "-") s = true ->
  plain_number s = true.
Proof.
  unfold plain_number. destruct s as [|c r]; [reflexivity|].
  intros H. pose proof H as H'. simpl in H'.
  apply andb_true_iff in H' as [_ Hr].
  destruct c as [[] [] [] [] [] [] [] []]; first [exact H | exact Hr].
Qed.

Lemma mobile_pattern_plain (t : string) :
  SignUp.mobile_pattern t = true -> plain_number (JS.remove_spaces t) = true.
Proof.
  unfold SignUp.mobile_pattern. intros H.
  apply andb_true_iff in H as [_ H].
  destruct t as [|c r]; [reflexivity|].
  destruct (Ascii.eqb c "+") eqn:E.
  - apply Ascii.eqb_eq in E; subst c.
    change (JS.remove_spaces (String "+" r))
      with (String "+" (JS.remove_spaces r)).
    unfold plain_number. now apply remove_spaces_plain.
  - apply plain_number_of_plain, remove_spaces_plain.
    destruct c as [[] [] [] [] [] [] [] []]; first [discriminate E | exact H].
Qed.

(** X6: what a validated registration sends, in terms of what was typed:
    the name and the email without the white space around them, the
    password exactly as typed, and the mobile number with all its white
    space removed, which leaves an optional plus sign followed by digits
    and hyphens only.  The confirmation is not sent. *)
Theorem signup_sends_typed_values :
  forall (h : Host.t) (API_BASE_URL : option string) (o : Web.outcome)
         (st : SignUp.state) (data : SignUp.SignUpFormData),
    JS.unset API_BASE_URL = false ->
    Zod.safeParse (SignUp.signUpSchema h (SignUp.formData st)) = Zod.Success data ->
    let typed := SignUp.formData st in
    map Web.body
      (Web.requests (snd (SignUp.handleSignUp h API_BASE_URL o st))) =
    [ Some (JS.JObj
        [ ("name", JS.JStr (JS.trim (SignUp.name typed)));
          ("email", JS.JStr (JS.trim (SignUp.email typed)));
          ("mobileNumber",
           JS.JStr (JS.remove_spaces (SignUp.mobileNumber typed)));
          ("password", JS.JStr (SignUp.password typed)) ]) ] /\
    plain_number (JS.remove_spaces (SignUp.mobileNumber typed)) = true.
Proof.
  intros h base o st data Hb Hp typed. subst typed.
  pose proof Hp as Hp'. apply safeParse_success in Hp' as [Hnil Hout].
  rewrite signUpSchema_output in Hout. split.
  - rewrite handleSignUp_requests.
    unfold SignUp.handleSignUp_start, SignUp.isApiConfigured.
    rewrite Hp, Hb. subst data. simpl.
    now rewrite !remove_spaces_trim.
  - rewrite <- remove_spaces_trim. apply mobile_pattern_plain.
    pose proof (proj1 (signUpSchema_no_issue h _) Hnil SignUp.Key.mobileNumber) as Hv.
    unfold violations in Hv.
    destruct (SignUp.mobile_pattern _); [reflexivity|].
    destruct (_ <? _)%nat; discriminate.
Qed.

Lemma signup_sends_typed_values_witness :
  (JS.unset api = false /\
   Zod.safeParse (SignUp.signUpSchema Host.browser
                    (SignUp.formData registration_filled)) =
     Zod.Success registration) /\
  plain_number
    (JS.remove_spaces (SignUp.mobileNumber (SignUp.formData registration_filled)))
  = true.
Proof.
  split; [split; reflexivity|].
  exact (proj2 (signup_sends_typed_values Host.browser api unreachable
                  registration_filled registration eq_refl eq_refl)).
Defined.

(** ** Edits of the signup form, one after another *)

Section ObjDelete.
Context {K V : Type} (eqb : K -> K -> bool).
Hypothesis eqb_spec : forall a b, eqb a b = true <-> a = b.

Lemma delete_absent (k : K) (o : list (K * V)) :
  Obj.get eqb k o = None -> Obj.delete eqb k o = o.
Proof.
  induction o as [|[k' v] o IH]; simpl; [reflexivity|].
  destruct (eqb k' k); [discriminate|]. intros H. now rewrite IH.
Qed.

Lemma delete_idem (k : K) (o : list (K * V)) :
  Obj.delete eqb k (Obj.delete eqb k o) = Obj.delete eqb k o.
Proof. apply delete_absent, get_delete_same. Qed.

Lemma delete_comm (a b : K) (o : list (K * V)) :
  Obj.delete eqb a (Obj.delete eqb b o) = Obj.delete eqb b (Obj.delete eqb a o).
Proof.
  induction o as [|[k' v] o IH]; simpl; [reflexivity|].
  destruct (eqb k' b) eqn:Eb, (eqb k' a) eqn:Ea; simpl;
    rewrite ?Eb, ?Ea, ?IH; reflexivity.
Qed.

End ObjDelete.

Lemma state_ext (s t : SignUp.state) :
  SignUp.formData s = SignUp.formData t ->
  SignUp.showPassword s = SignUp.showPassword t ->
  SignUp.loading s = SignUp.loading t ->
  SignUp.error s = SignUp.error t ->
  SignUp.formErrors s = SignUp.formErrors t ->
  SignUp.success s = SignUp.success t ->
  s = t.
Proof. destruct s, t; simpl; intros; subst; reflexivity. Qed.

Lemma handleChange_flags (field : SignUp.Key.t) (value : string)
    (st : SignUp.state) :
  SignUp.showPassword (SignUp.handleChange field value st) = SignUp.showPassword st /\
  SignUp.loading (SignUp.handleChange field value st) = SignUp.loading st /\
  SignUp.success (SignUp.handleChange field value st) = SignUp.success st /\
  SignUp.error (SignUp.handleChange field value st) = clear_banner (SignUp.error st).
Proof.
  destruct st as [d sp l e fe su].
  unfold SignUp.handleChange, clear_banner. cbn [SignUp.error SignUp.formErrors].
  destruct e as [e|]; [destruct (e =? "")|];
    destruct (SignUp.present _); destruct (_ && _); repeat split; reflexivity.
Qed.

Lemma handleChange_errors (field : SignUp.Key.t) (value : string)
    (st : SignUp.state) :
  SignUp.formErrors (SignUp.handleChange field value st) =
  after_edit field (SignUp.formErrors st).
Proof.
  rewrite handleChange_formErrors. cbv zeta. unfold after_edit.
  destruct (Obj.get SignUp.Key.eqb field (SignUp.formErrors st)) eqn:E; simpl.
  - reflexivity.
  - now rewrite (delete_absent _ field _ E).
Qed.

Lemma shows_mismatch_delete (k : SignUp.Key.t) (o : SignUp.FormErrors) :
  shows_mismatch (Obj.delete SignUp.Key.eqb k o) =
  if SignUp.Key.eqb k SignUp.Key.confirmPassword then false else shows_mismatch o.
Proof.
  unfold shows_mismatch. destruct (SignUp.Key.eqb k SignUp.Key.confirmPassword) eqn:E.
  - apply Key_eqb_spec in E; subst k. now rewrite get_delete_same.
  - rewrite (get_delete_other _ Key_eqb_spec); [reflexivity|].
    intros H. rewrite <- H in E. discriminate E.
Qed.

Lemma after_edit_twice (f : SignUp.Key.t) (o : SignUp.FormErrors) :
  after_edit f (after_edit f o) = after_edit f o.
Proof.
  unfold after_edit.
  destruct (shows_mismatch o) eqn:C; destruct f; simpl;
    rewrite ?shows_mismatch_delete; simpl; rewrite ?C; simpl;
    rewrite ?delete_idem;
    try reflexivity;
    now rewrite (delete_comm _ SignUp.Key.password SignUp.Key.confirmPassword),
      delete_idem.
Qed.

Lemma after_edit_comm (f g : SignUp.Key.t) (o : SignUp.FormErrors) :
  after_edit f (after_edit g o) = after_edit g (after_edit f o).
Proof.
  unfold after_edit.
  destruct (shows_mismatch o) eqn:C; destruct f, g; simpl;
    rewrite ?shows_mismatch_delete; simpl; rewrite ?C; simpl;
    rewrite ?delete_idem; try reflexivity;
    repeat first
      [ reflexivity
      | apply delete_comm
      | rewrite delete_idem
      | rewrite (delete_comm _ SignUp.Key.confirmPassword SignUp.Key.password)
      | rewrite (delete_comm _ SignUp.Key.confirmPassword SignUp.Key.name)
      | rewrite (delete_comm _ SignUp.Key.confirmPassword SignUp.Key.email)
      | rewrite (delete_comm _ SignUp.Key.confirmPassword SignUp.Key.mobileNumber) ].
Qed.

Lemma read_write (k field : SignUp.Key.t) (value : string)
    (d : SignUp.SignUpFormData) :
  SignUp.read k (SignUp.write field value d) =
  if SignUp.Key.eqb k field then value else SignUp.read k d.
Proof. destruct k, field; reflexivity. Qed.

(** X7: an edit of one field changes the value of that field and of no
    other, leaves the loading, success and password-visibility flags
    alone, takes away the error banner, and never adds an entry to the
    error map: every entry found after the edit was there before it, and
    the entries of the other fields, the confirmation apart, are as they
    were. *)
Theorem handleChange_touches_one_field :
  forall (field : SignUp.Key.t) (value : string) (st : SignUp.state),
    let st' := SignUp.handleChange field value st in
    (forall k,
        SignUp.read k (SignUp.formData st') =
        if SignUp.Key.eqb k field then value else SignUp.read k (SignUp.formData st)) /\
    SignUp.loading st' = SignUp.loading st /\
    SignUp.success st' = SignUp.success st /\
    SignUp.showPassword st' = SignUp.showPassword st /\
    (forall API_BASE_URL,
        SignUp.success st = false ->
        SignUp.render API_BASE_URL st' =
        SignUp.FormScreen None (SignUp.submit_disabled API_BASE_URL st)) /\
    (forall k msgs,
        Obj.get SignUp.Key.eqb k (SignUp.formErrors st') = Some msgs ->
        Obj.get SignUp.Key.eqb k (SignUp.formErrors st) = Some msgs) /\
    (forall k,
        k <> field -> k <> SignUp.Key.confirmPassword ->
        Obj.get SignUp.Key.eqb k (SignUp.formErrors st') =
        Obj.get SignUp.Key.eqb k (SignUp.formErrors st)).
Proof.
  intros field value st st'. subst st'.
  destruct (handleChange_flags field value st) as (Hs & Hl & Hu & He).
  repeat split; auto.
  - intros k. rewrite handleChange_formData. apply read_write.
  - intros base S. unfold SignUp.render, SignUp.submit_disabled.
    rewrite Hu, He, Hl, S. unfold clear_banner.
    destruct (SignUp.error st) as [e|]; [|reflexivity].
    destruct (e =? "") eqn:E; [now rewrite E|reflexivity].
  - intros k msgs H. now apply handleChange_keeps in H as (_ & H & _).
  - intros k Hk Hc. rewrite handleChange_errors. unfold after_edit.
    destruct (_ && _);
      rewrite ?(get_delete_other _ Key_eqb_spec) by assumption; reflexivity.
Qed.

(** X8: of two edits of one field in a row only the second counts: the
    state is the one that the second edit alone would leave. *)
Theorem handleChange_last_edit_wins :
  forall (field : SignUp.Key.t) (first second : string) (st : SignUp.state),
    SignUp.handleChange field second (SignUp.handleChange field first st) =
    SignUp.handleChange field second st.
Proof.
  intros field v w st.
  destruct (handleChange_flags field w (SignUp.handleChange field v st))
    as (Hs & Hl & Hu & He).
  destruct (handleChange_flags field v st) as (Hs1 & Hl1 & Hu1 & He1).
  destruct (handleChange_flags field w st) as (Hs2 & Hl2 & Hu2 & He2).
  apply state_ext.
  - rewrite !handleChange_formData. now destruct field.
  - congruence.
  - congruence.
  - rewrite He, He1, He2. unfold clear_banner.
    destruct (SignUp.error st) as [e|]; [|reflexivity].
    destruct (e =? "") eqn:E; [now rewrite E|reflexivity].
  - rewrite !handleChange_errors. apply after_edit_twice.
  - congruence.
Qed.

(** X9: edits of two different fields commute: the state after both does
    not depend on which came first. *)
Theorem handleChange_commutes :
  forall (f g : SignUp.Key.t) (v w : string) (st : SignUp.state),
    f <> g ->
    SignUp.handleChange f v (SignUp.handleChange g w st) =
    SignUp.handleChange g w (SignUp.handleChange f v st).
Proof.
  intros f g v w st Hfg.
  destruct (handleChange_flags f v (SignUp.handleChange g w st))
    as (Hs & Hl & Hu & He).
  destruct (handleChange_flags g w (SignUp.handleChange f v st))
    as (Hs' & Hl' & Hu' & He').
  destruct (handleChange_flags g w st) as (Hs1 & Hl1 & Hu1 & He1).
  destruct (handleChange_flags f v st) as (Hs2 & Hl2 & Hu2 & He2).
  apply state_ext.
  - rewrite !handleChange_formData.
    destruct f, g; try reflexivity; now elim Hfg.
  - congruence.
  - congruence.
  - congruence.
  - rewrite !handleChange_errors. apply after_edit_comm.
  - congruence.
Qed.

Lemma handleChange_commutes_witness :
  SignUp.Key.password <> SignUp.Key.confirmPassword /\
  SignUp.handleChange SignUp.Key.password "secret2"
    (SignUp.handleChange SignUp.Key.confirmPassword "secret2"
       (fst (fst (SignUp.handleSignUp_start Host.browser api mistyped)))) =
  SignUp.handleChange SignUp.Key.confirmPassword "secret2"
    (SignUp.handleChange SignUp.Key.password "secret2"
       (fst (fst (SignUp.handleSignUp_start Host.browser api mistyped)))).
Proof.
  split; [discriminate|].
  apply handleChange_commutes. discriminate.
Defined.

(** ** One request at a time *)

Lemma handleChange_idle (field : SignUp.Key.t) (value : string)
    (st : SignUp.state) :
  SignUp.error st = None -> SignUp.formErrors st = [] ->
  SignUp.error (SignUp.handleChange field value st) = None /\
  SignUp.formErrors (SignUp.handleChange field value st) = [].
Proof.
  intros He Hf. destruct (handleChange_flags field value st) as (_ & _ & _ & H).
  rewrite H, He, handleChange_errors, Hf. split; [reflexivity|].
  unfold after_edit. destruct (_ && _); reflexivity.
Qed.

Lemma ui_step_in_flight (h : Host.t) (base : option string) (e : SignUp.event)
    (s s' : SignUp.state * nat) :
  in_flight s -> SignUp.ui_step h base e s = Some s' -> in_flight s'.
Proof.
  destruct s as [st n], s' as [st' n']. unfold in_flight.
  cbn [fst snd]. intros (Hn & Hl & Hs) H. unfold SignUp.ui_step in H.
  destruct (SignUp.offered base e st n) eqn:Ho; [|discriminate].
  destruct e as [field value| | |o]; simpl in Ho.
  - injection H as <- <-. simpl.
    destruct (handleChange_flags field value st) as (_ & Hl' & Hu' & _).
    rewrite Hl', Hu'. split; [exact Hn|]. split.
    + intros L. destruct (Hl L) as (He & Hf & Hsu).
      destruct (handleChange_idle field value st He Hf) as [-> ->]. auto.
    + intros S. rewrite S in Ho. discriminate.
  - injection H as <- <-. simpl. split; [exact Hn|]. split; [exact Hl|].
    intros S. rewrite S in Ho. discriminate.
  - apply andb_true_iff in Ho as [Hsu Hd].
    apply negb_true_iff in Hsu, Hd. unfold SignUp.submit_disabled in Hd.
    apply orb_false_iff in Hd as [Hload Hconf].
    unfold SignUp.handleSignUp_start in H. rewrite Hconf in H.
    rewrite Hload in Hn. subst n.
    destruct (Zod.safeParse _) as [data|issues]; injection H as <- <-; simpl.
    + repeat split; auto; congruence.
    + rewrite Hload, Hsu. repeat split; try discriminate.
      destruct (Obj.keys _); reflexivity.
  - apply Nat.ltb_lt in Ho.
    assert (L : SignUp.loading st = true).
    { destruct (SignUp.loading st); [reflexivity|]. subst n. inversion Ho. }
    rewrite L in Hn. subst n. destruct (Hl L) as (He & Hf & Hsu).
    injection H as <- <-. simpl.
    destruct (failed_outcome o) eqn:F.
    + rewrite (handleSignUp_resume_failed h o st F).
      destruct (handleSignUp_catch_result (signup_failure_message h o) st)
        as (_ & _ & L' & S' & _).
      rewrite L', S', Hsu. repeat split; discriminate.
    + destruct o as [m|res]; [discriminate|]. simpl in F.
      apply negb_false_iff in F. unfold SignUp.handleSignUp_resume.
      rewrite F. simpl. rewrite He, Hf. repeat split; try discriminate.
Qed.

Lemma ui_run_in_flight (h : Host.t) (base : option string)
    (es : list SignUp.event) :
  forall s s', in_flight s -> SignUp.ui_run h base es s = Some s' -> in_flight s'.
Proof.
  induction es as [|e es IH]; intros s s' Hs H; simpl in H.
  - injection H as <-. exact Hs.
  - destruct (SignUp.ui_step h base e s) as [s1|] eqn:E; [|discriminate].
    apply (IH s1 s'); [|exact H]. now apply (ui_step_in_flight h base e s).
Qed.

(** X10: on the signup page at most one request is out at any time.
    Along every run of events that the page offers, the number of
    requests that have not settled is one while the page is loading and
    none otherwise; while one is out the page offers no submission; and
    once the success screen is reached nothing is out and no error is
    set. *)
Theorem one_request_at_a_time :
  forall (h : Host.t) (API_BASE_URL : option string) (events : list SignUp.event)
         (st : SignUp.state) (outstanding : nat),
    SignUp.ui_run h API_BASE_URL events (SignUp.initial, 0) =
      Some (st, outstanding) ->
    outstanding = (if SignUp.loading st then 1 else 0) /\
    (outstanding = 1 ->
     SignUp.ui_step h API_BASE_URL SignUp.Submit (st, outstanding) = None) /\
    (SignUp.success st = true ->
     outstanding = 0 /\ SignUp.error st = None /\ SignUp.formErrors st = []).
Proof.
  intros h base events st n H.
  assert (Hi : in_flight (st, n)).
  { apply (ui_run_in_flight h base events (SignUp.initial, 0)); [|exact H].
    repeat split; discriminate. }
  destruct Hi as (Hn & Hl & Hs). simpl in Hn, Hl, Hs.
  split; [exact Hn|]. split.
  - intros ->. destruct (SignUp.loading st) eqn:L; [|discriminate].
    unfold SignUp.ui_step, SignUp.offered, SignUp.submit_disabled.
    rewrite L. simpl. now rewrite andb_false_r.
  - intros S. destruct (Hs S) as (He & Hf & L). rewrite L in Hn. auto.
Qed.

Lemma one_request_at_a_time_witness :
  SignUp.ui_run Host.browser api accepted_registration (SignUp.initial, 0) =
    Some (SignUp.run Host.browser api accepted_registration SignUp.initial, 0) /\
  SignUp.success
    (SignUp.run Host.browser api accepted_registration SignUp.initial) = true /\
  SignUp.error
    (SignUp.run Host.browser api accepted_registration SignUp.initial) = None.
Proof.
  split; [reflexivity|]. split; [reflexivity|].
  destruct (one_request_at_a_time Host.browser api accepted_registration
              (SignUp.run Host.browser api accepted_registration SignUp.initial)
              0 eq_refl) as (_ & _ & H).
  exact (proj1 (proj2 (H eq_refl))).
Defined.

Lemma handleChange_touches_one_field_witness :
  SignUp.success mistyped = false /\
  SignUp.Key.name <> SignUp.Key.password /\
  SignUp.render api (SignUp.handleChange SignUp.Key.password "secret2" mistyped) =
    SignUp.FormScreen None false /\
  Obj.get SignUp.Key.eqb SignUp.Key.name
    (SignUp.formErrors
       (SignUp.handleChange SignUp.Key.password "secret2" mistyped)) =
  Obj.get SignUp.Key.eqb SignUp.Key.name (SignUp.formErrors mistyped).
Proof.
  split; [reflexivity|]. split; [discriminate|].
  destruct (handleChange_touches_one_field SignUp.Key.password "secret2" mistyped)
    as (_ & _ & _ & _ & H5 & _ & H7).
  split.
  - exact (H5 api eq_refl).
  - apply H7; discriminate.
Defined.

(** ** Outcomes of a login request *)

Lemma truthy_or_else (a : JS.value) (b : JS.json) :
  JS.truthy (Some b) = true -> JS.truthy (Some (JS.or_else a b)) = true.
Proof.
  intros Hb. unfold JS.or_else. destruct a as [v|]; [|exact Hb].
  destruct (JS.truthy (Some v)) eqn:E; [exact E|exact Hb].
Qed.

Lemma errorMessage_truthy (res : Web.response) :
  JS.truthy (Some (LoginPageContent.errorMessage res)) = true.
Proof.
  unfold LoginPageContent.errorMessage.
  destruct (Web.json res) as [errorData|]; [|reflexivity].
  destruct (JS.get errorData "error"), (JS.get errorData "message");
    try reflexivity.
  apply truthy_or_else, truthy_or_else. reflexivity.
Qed.

(** X11: the login page of src/app/login redirects exactly when the base
    URL is set and the login request is answered with an [ok] status.  It
    then pushes the home route, refreshes, announces the redirect and
    shows no error. *)
Theorem login_redirects_on_ok_only :
  forall (API_BASE_URL : option string) (o : Web.outcome)
         (data : LoginPageContent.FormData) (st : LoginPageContent.state),
    let r := LoginPageContent.onSubmit API_BASE_URL o data st in
    (In (Web.RouterPush "/") (snd r) <->
     JS.unset API_BASE_URL = false /\
     exists res, o = Web.Resolved res /\ Web.ok res = true) /\
    (In (Web.RouterPush "/") (snd r) ->
     In Web.RouterRefresh (snd r) /\
     LoginPageContent.error (fst r) = None /\
     LoginPageContent.message (fst r) = Some "Redirecting to your dashboard...").
Proof.
  intros base o data st r. subst r. unfold LoginPageContent.onSubmit.
  destruct (JS.unset base).
  - split.
    + split; [intros [H|[]]; discriminate|intros [H _]; discriminate].
    + intros [H|[]]; discriminate.
  - destruct o as [m|res].
    + split.
      * split; [intros [H|[H|[H|[H|[]]]]]; discriminate
               |intros [_ [res [H _]]]; discriminate].
      * intros [H|[H|[H|[H|[]]]]]; discriminate.
    + destruct (Web.ok res) eqn:Hok.
      * split.
        -- split; [intros _; split; [reflexivity|]; now exists res
                  |intros _; simpl; auto 6].
        -- intros _. simpl. auto 8.
      * split.
        -- split; [intros [H|[H|[H|[]]]]; discriminate
                  |intros [_ [res' [H H']]]; injection H as <-; congruence].
        -- intros [H|[H|[H|[]]]]; discriminate.
Qed.

Lemma login_redirects_on_ok_only_witness :
  In (Web.RouterPush "/")
     (snd (LoginPageContent.onSubmit api (Web.Resolved created)
             credentials_parsed LoginPageContent.initial)) /\
  LoginPageContent.message
    (fst (LoginPageContent.onSubmit api (Web.Resolved created)
            credentials_parsed LoginPageContent.initial)) =
  Some "Redirecting to your dashboard...".
Proof.
  destruct (login_redirects_on_ok_only api (Web.Resolved created)
              credentials_parsed LoginPageContent.initial) as [H1 H2].
  assert (H : In (Web.RouterPush "/")
                (snd (LoginPageContent.onSubmit api (Web.Resolved created)
                        credentials_parsed LoginPageContent.initial))).
  { apply H1. split; [reflexivity|]. exists created. split; reflexivity. }
  split; [exact H|]. exact (proj2 (proj2 (H2 H))).
Defined.

(** X12: on the login page of src/app/login a request that fails, by
    rejection or by a status that is not [ok], always leaves an error to
    show: the error state holds a value that is truthy, so the banner is
    rendered; the earlier message is cleared and nothing redirects.  A
    rejected request shows the connection text. *)
Theorem login_failure_is_shown :
  forall (API_BASE_URL : option string) (o : Web.outcome)
         (data : LoginPageContent.FormData) (st : LoginPageContent.state),
    JS.unset API_BASE_URL = false ->
    failed_outcome o = true ->
    let r := LoginPageContent.onSubmit API_BASE_URL o data st in
    JS.truthy (LoginPageContent.error (fst r)) = true /\
    LoginPageContent.message (fst r) = None /\
    ~ In (Web.RouterPush "/") (snd r) /\
    (forall m, o = Web.Rejected m ->
               LoginPageContent.error (fst r) =
               Some (JS.JStr "Login failed. Please check your connection and try again.")).
Proof.
  intros base o data st Hb Hf r. subst r. unfold LoginPageContent.onSubmit.
  rewrite Hb. destruct o as [m|res].
  - repeat split. intros [H|[H|[H|[H|[]]]]]; discriminate.
  - simpl in Hf. apply negb_true_iff in Hf. rewrite Hf.
    cbn [fst snd LoginPageContent.error LoginPageContent.setError
         LoginPageContent.message LoginPageContent.setMessage].
    repeat split.
    + apply errorMessage_truthy.
    + intros [H|[H|[H|[]]]]; discriminate.
    + intros m H. discriminate H.
Qed.

Lemma login_failure_is_shown_witness :
  (JS.unset api = false /\
   failed_outcome (Web.Resolved server_error_without_body) = true) /\
  JS.truthy
    (LoginPageContent.error
       (fst (LoginPageContent.onSubmit api
               (Web.Resolved server_error_without_body)
               credentials_parsed LoginPageContent.initial))) = true.
Proof.
  split; [split; reflexivity|].
  exact (proj1 (login_failure_is_shown api
                  (Web.Resolved server_error_without_body)
                  credentials_parsed LoginPageContent.initial eq_refl eq_refl)).
Defined.

(** X13: which message the login page of src/app/login takes from the
    body of a failed response: the [error] of the body when it is
    truthy, else the [message] of the body when it is truthy, else
    [Login failed (status N)]; and the status text again when the body is
    [null], is no object, or is no JSON document. *)
Theorem login_error_precedence :
  forall (res : Web.response),
    let generic :=
      JS.JStr ("Login failed (status " ++ JS.decimal (Web.status res) ++ ")") in
    (forall ms e,
        Web.json res = Some (JS.JObj ms) ->
        JS.member "error" ms = Some e -> JS.truthy (Some e) = true ->
        LoginPageContent.errorMessage res = e) /\
    (forall ms m,
        Web.json res = Some (JS.JObj ms) ->
        JS.truthy (JS.member "error" ms) = false ->
        JS.member "message" ms = Some m -> JS.truthy (Some m) = true ->
        LoginPageContent.errorMessage res = m) /\
    (forall ms,
        Web.json res = Some (JS.JObj ms) ->
        JS.truthy (JS.member "error" ms) = false ->
        JS.truthy (JS.member "message" ms) = false ->
        LoginPageContent.errorMessage res = generic) /\
    ((forall ms, Web.json res <> Some (JS.JObj ms)) ->
     LoginPageContent.errorMessage res = generic).
Proof.
  intros res generic. unfold LoginPageContent.errorMessage. fold generic.
  repeat split.
  - intros ms e -> He Ht. simpl. unfold JS.or_else at 1. now rewrite He, Ht.
  - intros ms m -> He Hm Ht. simpl. unfold JS.or_else.
    rewrite Hm, Ht. destruct (JS.member "error" ms) as [e|]; [|reflexivity].
    now rewrite He.
  - intros ms -> He Hm. simpl. unfold JS.or_else.
    destruct (JS.member "message" ms) as [m|];
      destruct (JS.member "error" ms) as [e|];
      rewrite ?He, ?Hm; reflexivity.
  - intros H. destruct (Web.json res) as [[| | | | |ms]|]; try reflexivity.
    now elim (H ms).
Qed.

Lemma login_error_precedence_witness :
  (Web.json credentials_rejected =
     Some (JS.JObj [("error", JS.JStr "Invalid credentials")]) /\
   JS.member "error" [("error", JS.JStr "Invalid credentials")] =
     Some (JS.JStr "Invalid credentials") /\
   JS.truthy (Some (JS.JStr "Invalid credentials")) = true) /\
  LoginPageContent.errorMessage credentials_rejected =
  JS.JStr "Invalid credentials".
Proof.
  split; [repeat split|].
  exact (proj1 (login_error_precedence credentials_rejected)
           [("error", JS.JStr "Invalid credentials")]
           (JS.JStr "Invalid credentials") eq_refl eq_refl eq_refl).
Defined.

(** ** The other login page *)

(** X14: the login page of src/unnamed/part_000 sends its request exactly
    when both fields are filled in and the base URL is set.  A refused
    submission leaves the state as it was.  After a request, whatever its
    outcome, the page is no longer loading and the typed values are as
    they were; it redirects exactly when the response is [ok], and
    otherwise holds an error that is truthy, so the banner is rendered. *)
Theorem other_login_submission :
  forall (API_BASE_URL : option string) (o : Web.outcome) (st : LoginPage.state),
    let r := LoginPage.handleSubmit API_BASE_URL o st in
    let sent :=
      negb (LoginPage.email st =? "") && negb (LoginPage.password st =? "") &&
      negb (JS.unset API_BASE_URL) in
    Web.requests (snd r) =
      (if sent then [LoginPage.login_request API_BASE_URL st] else []) /\
    (sent = false -> fst r = st) /\
    (sent = true ->
     LoginPage.loading (fst r) = false /\
     LoginPage.email (fst r) = LoginPage.email st /\
     LoginPage.password (fst r) = LoginPage.password st /\
     (failed_outcome o = false ->
      In (Web.RouterPush "/") (snd r) /\ LoginPage.error (fst r) = None) /\
     (failed_outcome o = true ->
      ~ In (Web.RouterPush "/") (snd r) /\
      JS.truthy (LoginPage.error (fst r)) = true)).
Proof.
  intros base o st r sent. subst r sent. unfold LoginPage.handleSubmit.
  destruct (LoginPage.email st =? ""); [repeat split; discriminate|].
  destruct (LoginPage.password st =? ""); [repeat split; discriminate|].
  destruct (JS.unset base); [repeat split; discriminate|].
  cbn [negb andb orb]. split; [|split; [discriminate|intros _]].
  - destruct o as [m|res]; [reflexivity|].
    destruct (Web.ok res); [reflexivity|]. destruct (JS.get _ _); reflexivity.
  - assert (Hno : forall l : list Web.effect,
              ~ In (Web.RouterPush "/")
                  ([Web.PreventDefault;
                    Web.Toast Web.toast_loading "Signing you in..." None;
                    Web.Fetch (LoginPage.login_request base st)] ++
                   [Web.Toast Web.toast_error "Connection error" None])%list).
    { intros _. simpl. intuition discriminate. }
    destruct o as [m|res].
    + split; [reflexivity|]. split; [reflexivity|]. split; [reflexivity|].
      split; [discriminate|]. intros _. split; [apply (Hno [])|reflexivity].
    + unfold failed_outcome. destruct (Web.ok res).
      * split; [reflexivity|]. split; [reflexivity|]. split; [reflexivity|].
        split; [|discriminate]. intros _. split; [simpl; auto 6|reflexivity].
      * destruct (JS.get _ _) as [e|];
          (split; [reflexivity|]; split; [reflexivity|]; split; [reflexivity|];
           split; [discriminate|]; intros _; split).
        -- simpl. intuition discriminate.
        -- cbn [fst LoginPage.error LoginPage.setLoading LoginPage.setError].
           now apply truthy_or_else.
        -- apply (Hno []).
        -- reflexivity.
Qed.

Lemma other_login_submission_witness :
  failed_outcome unreachable = true /\
  LoginPage.loading
    (fst (LoginPage.handleSubmit api unreachable credentials_typed)) = false /\
  JS.truthy
    (LoginPage.error
       (fst (LoginPage.handleSubmit api unreachable credentials_typed))) = true /\
  fst (LoginPage.handleSubmit None unreachable credentials_typed) =
    credentials_typed.
Proof.
  split; [reflexivity|].
  destruct (other_login_submission api unreachable credentials_typed)
    as (_ & _ & H).
  destruct (H eq_refl) as (H1 & _ & _ & _ & H5).
  split; [exact H1|]. split; [exact (proj2 (H5 eq_refl))|].
  exact (proj1 (proj2 (other_login_submission None unreachable credentials_typed))
           eq_refl).
Defined.

(** X15: which message the login page of src/unnamed/part_000 shows for
    a response that is not [ok]: the [error] of the body when it is
    truthy; the connection text when the body is the JSON value [null],
    whose read throws into the outer catch; and [Invalid credentials] in
    every other case, a body that is no JSON document included. *)
Theorem other_login_error_of_body :
  forall (API_BASE_URL : option string) (res : Web.response) (st : LoginPage.state),
    LoginPage.email st <> "" -> LoginPage.password st <> "" ->
    JS.unset API_BASE_URL = false ->
    Web.ok res = false ->
    let shown :=
      LoginPage.error
        (fst (LoginPage.handleSubmit API_BASE_URL (Web.Resolved res) st)) in
    (forall ms e,
        Web.json res = Some (JS.JObj ms) ->
        JS.member "error" ms = Some e -> JS.truthy (Some e) = true ->
        shown = Some e) /\
    (Web.json res = Some JS.JNull ->
     shown = Some (JS.JStr "Please check your connection and try again")) /\
    (Web.json res <> Some JS.JNull ->
     (forall ms, Web.json res = Some (JS.JObj ms) ->
                 JS.truthy (JS.member "error" ms) = false) ->
     shown = Some (JS.JStr "Invalid credentials")).
Proof.
  intros base res st He Hp Hb Hok shown. subst shown.
  apply String.eqb_neq in He, Hp. unfold LoginPage.handleSubmit.
  rewrite He, Hp, Hb, Hok. cbn [orb]. repeat split.
  - intros ms e -> Hm Ht. simpl. unfold JS.or_else. now rewrite Hm, Ht.
  - intros ->. reflexivity.
  - intros Hn Hobj.
    destruct (Web.json res) as [[| | | | |ms]|]; try reflexivity.
    + now elim Hn.
    + specialize (Hobj ms eq_refl). simpl. unfold JS.or_else.
      destruct (JS.member "error" ms) as [e|]; [|reflexivity].
      now rewrite Hobj.
Qed.

Lemma other_login_error_of_body_witness :
  (LoginPage.email credentials_typed <> "" /\
   LoginPage.password credentials_typed <> "" /\
   JS.unset api = false /\
   Web.ok server_error_without_body = false /\
   Web.json server_error_without_body <> Some JS.JNull) /\
  LoginPage.error
    (fst (LoginPage.handleSubmit api (Web.Resolved server_error_without_body)
            credentials_typed)) =
  Some (JS.JStr "Invalid credentials").
Proof.
  split; [repeat split; discriminate|].
  assert (He : LoginPage.email credentials_typed <> "") by discriminate.
  assert (Hp : LoginPage.password credentials_typed <> "") by discriminate.
  apply (proj2 (proj2 (other_login_error_of_body api server_error_without_body
                         credentials_typed He Hp eq_refl eq_refl))).
  - discriminate.
  - intros ms H. discriminate H.
Defined.

(** ** The session check and the login form *)

(** X16: the session check changes nothing of the state but
    [checkingAuth], which it can only lower.  It warns on the console
    exactly when the response is not [ok] and its status is not 401, and
    it raises an error toast exactly when the base URL is not set or the
    request is rejected: a response, whatever its status, raises none. *)
Theorem sessionCheck_is_quiet :
  forall (API_BASE_URL : option string) (o : Web.outcome)
         (st : LoginPageContent.state),
    let r := LoginPageContent.sessionCheck API_BASE_URL o st in
    (fst r = st \/ fst r = LoginPageContent.setCheckingAuth false st) /\
    (In (Web.Console Web.console_warn "Session check returned status:") (snd r) <->
     JS.unset API_BASE_URL = false /\
     exists res, o = Web.Resolved res /\ Web.ok res = false /\
                 Web.status res <> 401) /\
    ((exists title, In (Web.Toast Web.toast_error title None) (snd r)) <->
     JS.unset API_BASE_URL = true \/ exists m, o = Web.Rejected m).
Proof.
  intros base o st r. subst r. unfold LoginPageContent.sessionCheck.
  destruct (JS.unset base) eqn:Hb.
  - split; [now right|]. split.
    + split; [simpl; intuition discriminate|intros [H _]; discriminate].
    + split; [now left|]. intros _. eexists. simpl. right. left. reflexivity.
  - destruct o as [m|res].
    + split; [now right|]. split.
      * split; [simpl; intuition discriminate
               |intros [_ [res [H _]]]; discriminate].
      * split; [right; now exists m|].
        intros _. eexists. simpl. right. right. left. reflexivity.
    + destruct (Web.ok res) eqn:Hok.
      * destruct (JS.truthy _).
        -- split; [now left|]. split.
           ++ split; [simpl; intuition discriminate|].
              intros [_ [res' [H [H' _]]]]. injection H as <-. congruence.
           ++ split; [intros [t H]; simpl in H; intuition discriminate|].
              intros [H|[m H]]; discriminate.
        -- split; [now right|]. split.
           ++ split; [simpl; intuition discriminate|].
              intros [_ [res' [H [H' _]]]]. injection H as <-. congruence.
           ++ split; [intros [t H]; simpl in H; intuition discriminate|].
              intros [H|[m H]]; discriminate.
      * split; [now right|].
        assert (H200 : (Web.status res =? 200)%nat = false).
        { unfold Web.ok in Hok. destruct (Web.status res =? 200)%nat eqn:E;
            [|reflexivity].
          apply Nat.eqb_eq in E. rewrite E in Hok. discriminate Hok. }
        rewrite H200. cbn [negb andb].
        destruct (Web.status res =? 401)%nat eqn:E401; cbn [negb]; split.
        -- apply Nat.eqb_eq in E401. split; [simpl; intuition discriminate|].
           intros [_ [res' [H [_ H']]]]. injection H as <-. now elim H'.
        -- split; [intros [t H]; simpl in H; intuition discriminate|].
           intros [H|[m H]]; discriminate.
        -- apply Nat.eqb_neq in E401. split.
           ++ intros _. split; [reflexivity|]. now exists res.
           ++ intros _. simpl. auto.
        -- split; [intros [t H]; simpl in H; intuition discriminate|].
           intros [H|[m H]]; discriminate.
Qed.

Lemma sessionCheck_is_quiet_witness :
  In (Web.Console Web.console_warn "Session check returned status:")
     (snd (LoginPageContent.sessionCheck api
             (Web.Resolved server_error_without_body) LoginPageContent.initial)) /\
  ~ (exists title,
        In (Web.Toast Web.toast_error title None)
           (snd (LoginPageContent.sessionCheck api
                   (Web.Resolved credentials_rejected) LoginPageContent.initial))).
Proof.
  split.
  - apply (proj1 (proj2 (sessionCheck_is_quiet api
                           (Web.Resolved server_error_without_body)
                           LoginPageContent.initial))).
    split; [reflexivity|]. exists server_error_without_body.
    repeat split. discriminate.
  - intros H.
    apply (proj2 (proj2 (sessionCheck_is_quiet api
                           (Web.Resolved credentials_rejected)
                           LoginPageContent.initial))) in H.
    destruct H as [H|[m H]]; discriminate.
Defined.



(** ** The greeting pages *)

(** X18: a click on either greeting page sends exactly one request, a
    plain GET of the greeting path under the base URL, also when the base
    URL is not set (the address then starts with [undefined]); the two
    pages send the same request and end with the same message, which does
    not depend on the message shown before. *)
Theorem greeting_always_fetches :
  forall (baseUrl : option string) (o : Web.outcome) (st st' : Home.state),
    Web.requests (snd (Home.handleClick baseUrl o st)) =
      [ {| Web.url := JS.template baseUrl ++ "/api/greet?name=Alice";
           Web.method := None; Web.content_type := None;
           Web.body := None; Web.credentials := None |} ] /\
    Web.requests (snd (Home.fetchGreeting baseUrl o st')) =
      Web.requests (snd (Home.handleClick baseUrl o st)) /\
    fst (Home.fetchGreeting baseUrl o st') = fst (Home.handleClick baseUrl o st).
Proof.
  intros baseUrl o st st'. unfold Home.handleClick, Home.fetchGreeting.
  destruct o as [m|res]; [repeat split|].
  destruct (Web.text res); repeat split.
Qed.
